(** * Relaxation of thermodynamic models with too tight constraints

    A shallow embedding of [pytfa/optim/relaxation.py]: the two relaxers
    [relax_dgo] (standard Gibbs energy bounds, per reaction) and [relax_lc]
    (log-concentration bounds, per metabolite), together with the part of the
    model, expression, solver and table layers they call.

    Numbers are Python floats, modelled by Rocq's primitive binary64 floats
    with the same rounding; [(x <? y)%float] is Python's [x < y].  Python
    exceptions are the [Raise] branch of [Result]; the log threaded through
    the monad [M] is the list of the records that the relaxers themselves
    write to the logger of the input model (what the libraries they call
    write to a logger is not part of it). *)

From Stdlib Require Import Floats.PrimFloat.
From stdpp Require Import base option list strings gmap.

Set Default Proof Using "Type".
Set Warnings "-inexact-float,-clear-no-such-hyp".

(** ** Exceptions, results and the logging monad *)

Inductive Exn : Type :=
  | SolverError (msg : string)
  | KeyError (key : string)
  | ValueError (msg : string)
  | TypeError (msg : string).

Inductive Result (A : Type) : Type :=
  | Ok (a : A)
  | Raise (e : Exn).
Arguments Ok {A} a.
Arguments Raise {A} e.

#[global] Instance Result_ret : MRet Result := fun A a => Ok a.
#[global] Instance Result_bind : MBind Result := fun A B f r =>
  match r with
  | Ok a => f a
  | Raise e => Raise e
  end.

Inductive LogRecord : Type :=
  | LogError (msg : string)
  | LogWarning (msg : string)
  | LogInfo (msg : string).

(** A computation that may append to the log and may raise. *)
Definition M (A : Type) : Type := list LogRecord -> list LogRecord * Result A.

#[global] Instance M_ret : MRet M := fun A a log => (log, Ok a).
#[global] Instance M_bind : MBind M := fun A B f m log =>
  match m log with
  | (log', Ok a) => f a log'
  | (log', Raise e) => (log', Raise e)
  end.

Definition lift {A} (r : Result A) : M A := fun log => (log, r).
Definition emit (r : LogRecord) : M unit := fun log => (log ++ [r], Ok tt).

(** [try: body  except SolverError as SE: handler SE]: any other exception
    of [body] goes through. *)
Definition try_except_SolverError {A} (body : Result A) (handler : string -> M unit)
  : M unit :=
  match body with
  | Ok _ => mret tt
  | Raise (SolverError se) => handler se
  | Raise e => lift (Raise e)
  end.

(** [for x in l: s = body s x], stopping at the first exception. *)
Fixpoint for_each {S A} (body : S -> A -> Result S) (l : list A) (s : S) : Result S :=
  match l with
  | [] => Ok s
  | x :: l' =>
      match body s x with
      | Ok s' => for_each body l' s'
      | Raise e => Raise e
      end
  end.

(** ** Symbolic expressions of the solver layer

    Expressions are abstract syntax over variable names; a solver variable is
    identified by its name. *)

Inductive Expr : Type :=
  | Num (x : float)
  | Sym (name : string)
  | Add (a b : Expr)
  | Sub (a b : Expr)
  | Mul (a b : Expr).

Fixpoint symbols (e : Expr) : list string :=
  match e with
  | Num _ => []
  | Sym k => [k]
  | Add a b | Sub a b | Mul a b => symbols a ++ symbols b
  end.

(** [constraint.variables]: the distinct variables of the expression (a set
    in Python; here in order of first occurrence). *)
Definition expr_variables (e : Expr) : list string := remove_dups (symbols e).

(** The summands of an expression: [a + b + c] has three. *)
Fixpoint addends (e : Expr) : list Expr :=
  match e with
  | Add a b => addends a ++ addends b
  | _ => [e]
  end.

(** ** The model: reactions, metabolites, typed variables and constraints *)

Inductive VarKind : Type :=
  | DeltaGstd | LogConcentration
  | NegSlackVariable | PosSlackVariable
  | NegSlackLC | PosSlackLC
  | OtherVariable.

Inductive ConsKind : Type :=
  | NegativeDeltaG
  | OtherConstraint.

#[global] Instance VarKind_eq_dec : EqDecision VarKind.
Proof. solve_decision. Defined.
#[global] Instance ConsKind_eq_dec : EqDecision ConsKind.
Proof. solve_decision. Defined.

Record Metabolite : Type := { m_id : string }.

(** [r_metabolites] is the stoichiometry, keyed by metabolite id. *)
Record Reaction : Type := {
  r_id : string;
  r_metabolites : gmap string float
}.

(** A typed variable: [v_id] is the id of the owning reaction or metabolite,
    [v_name] the name of the solver variable, [v_lb] and [v_ub] the bounds of
    that solver variable ([.variable.lb], [.variable.ub]). *)
Record GenericVariable : Type := {
  v_kind : VarKind;
  v_id : string;
  v_name : string;
  v_lb : float;
  v_ub : float
}.

Record GenericConstraint : Type := {
  c_kind : ConsKind;
  c_reaction : Reaction;
  c_expr : Expr;
  c_lb : float;
  c_ub : float
}.

(** Modelled from the spec: the class of typed constraints is missing; a
    typed constraint is owned by a reaction and carries that reaction's id. *)
Definition c_id (c : GenericConstraint) : string := r_id (c_reaction c).

(** The hook of a typed variable is the object that owns it; the variable
    classes read the id of the owner off the hook.  Reactions and
    metabolites are hooks, and so is a typed variable, which hands on the id
    of its own owner (line 222 hooks a slack variable on a log-concentration
    variable). *)
Class Hook (A : Type) : Type := hook_id : A -> string.
#[global] Instance Reaction_Hook : Hook Reaction := r_id.
#[global] Instance Metabolite_Hook : Hook Metabolite := m_id.
#[global] Instance GenericVariable_Hook : Hook GenericVariable := v_id.

Record ThermoModel : Type := {
  reactions : list Reaction;
  metabolites : list Metabolite;
  variables : list GenericVariable;
  constraints : list GenericConstraint;
  RT : float;
  objective : Expr;
  direction : string;
  solver : string
}.

(** [Solution.raw]: the value of each solver variable, by name. *)
Record Solution : Type := { raw : gmap string float }.

(** What a solve comes to: a solution, or the solver's failure. *)
Inductive Solve : Type :=
  | Solved (sol : Solution)
  | Failed (msg : string).

(** ** Record updates *)

Definition with_variables (m : ThermoModel) (vs : list GenericVariable) : ThermoModel :=
  {| reactions := reactions m; metabolites := metabolites m; variables := vs;
     constraints := constraints m; RT := RT m; objective := objective m;
     direction := direction m; solver := solver m |}.

Definition with_constraints (m : ThermoModel) (cs : list GenericConstraint) : ThermoModel :=
  {| reactions := reactions m; metabolites := metabolites m; variables := variables m;
     constraints := cs; RT := RT m; objective := objective m;
     direction := direction m; solver := solver m |}.

Definition set_solver (m : ThermoModel) (s : string) : ThermoModel :=
  {| reactions := reactions m; metabolites := metabolites m; variables := variables m;
     constraints := constraints m; RT := RT m; objective := objective m;
     direction := direction m; solver := s |}.

(** [cobra.util.solver.set_objective(model, value)] takes a dict, a solver
    expression or an objective; any other value raises [TypeError], a plain
    Python number among them.  [Num x] on its own is a plain number: the
    accumulator [objective = 0] of lines 66 and 213 is one until a sum of
    slack variables is added to it. *)
Definition with_objective (m : ThermoModel) (e : Expr) : ThermoModel :=
  {| reactions := reactions m; metabolites := metabolites m; variables := variables m;
     constraints := constraints m; RT := RT m; objective := e;
     direction := direction m; solver := solver m |}.

Definition set_objective (m : ThermoModel) (value : Expr) : Result ThermoModel :=
  match value with
  | Num _ => Raise (TypeError "not a valid objective")
  | _ => Ok (with_objective m value)
  end.

(** [model.objective.direction = d]. *)
Definition set_direction (m : ThermoModel) (d : string) : ThermoModel :=
  {| reactions := reactions m; metabolites := metabolites m; variables := variables m;
     constraints := constraints m; RT := RT m; objective := objective m;
     direction := d; solver := solver m |}.

(** [copy.deepcopy]: models are values here, so a copy shares nothing with
    its original by construction.  The records that copying a model writes
    to a logger are the library's, not the relaxers', and are left out. *)
Definition deepcopy (m : ThermoModel) : ThermoModel := m.

(** ** Collections

    A [DictList] (cobra) is an ordered list of objects indexed by their id:
    [i in l] tests the index and [l.get_by_id(i)] raises [KeyError] for an
    unknown id. *)

Definition contains_id {A} (id_of : A -> string) (l : list A) (i : string) : bool :=
  bool_decide (i ∈ id_of <$> l).

Definition get_by_id {A} (id_of : A -> string) (l : list A) (i : string) : Result A :=
  match head (filter (fun x => id_of x = i) l) with
  | Some x => Ok x
  | None => Raise (KeyError i)
  end.

(** [d[k]] on a dict. *)
Definition getitem {V} (d : gmap string V) (k : string) : Result V :=
  match d !! k with
  | Some x => Ok x
  | None => Raise (KeyError k)
  end.

(** [OrderedDict]: [d[k] = v] overwrites in place the value of a key that is
    there and appends a new key at the end. *)
Definition od_set {V} (d : list (string * V)) (k : string) (v : V) : list (string * V) :=
  if bool_decide (k ∈ d.*1)
  then (fun kv => if bool_decide (kv.1 = k) then (k, v) else kv) <$> d
  else d ++ [(k, v)].

(** ** The table layer (pandas)

    [DataFrame.from_dict(d, orient='index')] makes one row per key, in the
    order of the dict, with the default column labels [0 .. w-1], where [w]
    is the length of the longest row: a frame built from an empty dict has no
    column.  Assigning [frame.columns] raises [ValueError] unless there are
    as many labels as columns. *)

Inductive Label : Type :=
  | IntLabel (n : nat)
  | StrLabel (s : string).

Record DataFrame : Type := {
  df_index : list string;
  df_columns : list Label;
  df_values : list (list float)
}.

Definition from_dict_index (d : list (string * list float)) : DataFrame :=
  {| df_index := d.*1;
     df_columns := IntLabel <$> seq 0 (max_list (length <$> d.*2));
     df_values := d.*2 |}.

Definition set_columns (df : DataFrame) (labels : list string) : Result DataFrame :=
  if bool_decide (length (df_columns df) = length labels)
  then Ok {| df_index := df_index df;
             df_columns := StrLabel <$> labels;
             df_values := df_values df |}
  else Raise (ValueError "Length mismatch").

(** The rows of a frame with their index labels. *)
Definition df_rows (df : DataFrame) : list (string * list float) :=
  zip (df_index df) (df_values df).

(** ** Operations of the model

    The class of the model is not part of the sources at hand; its methods
    are modelled from the specification's list of required capabilities. *)

(** Modelled from the spec: [get_variables_of_type(kind)], the collection of
    the model's variables of that kind, keyed by owning-entity id. *)
Definition get_variables_of_type (m : ThermoModel) (k : VarKind) : list GenericVariable :=
  filter (fun v => v_kind v = k) (variables m).

(** The variable of a kind owned by the entity of an id:
    [get_variables_of_type(kind).get_by_id(i)]. *)
Definition var_of (m : ThermoModel) (k : VarKind) (i : string) : Result GenericVariable :=
  get_by_id v_id (get_variables_of_type m k) i.

(** Modelled from the spec: [get_constraints_of_type(kind)]. *)
Definition get_constraints_of_type (m : ThermoModel) (k : ConsKind) : list GenericConstraint :=
  filter (fun c => c_kind c = k) (constraints m).

(** Modelled from the spec: [add_constraint(kind, owner, expression, lb, ub)]. *)
Definition add_constraint (m : ThermoModel) (k : ConsKind) (hook : Reaction)
    (expr : Expr) (lb ub : float) : ThermoModel :=
  with_constraints m
    (constraints m ++
       [{| c_kind := k; c_reaction := hook; c_expr := expr; c_lb := lb; c_ub := ub |}]).

(** Modelled from the spec: [remove_constraint(c)] retracts the constraint of
    that kind and owner. *)
Definition remove_constraint (m : ThermoModel) (c : GenericConstraint) : ThermoModel :=
  with_constraints m
    (filter (fun c' => ¬ (c_kind c' = c_kind c ∧ c_id c' = c_id c)) (constraints m)).

(** Modelled from the spec: [repair()] re-syncs the per-kind views after
    structural edits; the views above are computed from the model, so there
    is nothing to re-sync. *)
Definition repair (m : ThermoModel) : ThermoModel := m.

(** [model.variables.get(name)]: the solver variable of that name, or
    [None]; each typed variable stands for the solver variable of its name. *)
Definition variables_get (m : ThermoModel) (name : string) : option GenericVariable :=
  head (filter (fun v => v_name v = name) (variables m)).

(** [expression.subs(subs_dict)]: every symbol that the dict maps to a
    variable is replaced by that variable; an entry whose value is [None]
    replaces nothing. *)
Fixpoint subs (d : gmap string (option GenericVariable)) (e : Expr) : Expr :=
  match e with
  | Num x => Num x
  | Sym k =>
      match d !! k with
      | Some (Some v) => Sym (v_name v)
      | _ => Sym k
      end
  | Add a b => Add (subs d a) (subs d b)
  | Sub a b => Sub (subs d a) (subs d b)
  | Mul a b => Mul (subs d a) (subs d b)
  end.

(** [{k: slack_model.variables.get(k.name) for k in constraint.variables}]. *)
Definition subs_dict_of (slack_model : ThermoModel) (c : GenericConstraint)
  : gmap string (option GenericVariable) :=
  list_to_map ((fun k => (k, variables_get slack_model k)) <$> expr_variables (c_expr c)).

(** Assignment to the bounds of the solver variable behind a typed variable:
    the object is the first variable of its kind with its id, which is the
    one [get_by_id] hands out. *)
Definition set_lb (x : float) (v : GenericVariable) : GenericVariable :=
  {| v_kind := v_kind v; v_id := v_id v; v_name := v_name v; v_lb := x; v_ub := v_ub v |}.

Definition set_ub (x : float) (v : GenericVariable) : GenericVariable :=
  {| v_kind := v_kind v; v_id := v_id v; v_name := v_name v; v_lb := v_lb v; v_ub := x |}.

Fixpoint update_variable (k : VarKind) (i : string)
    (f : GenericVariable -> GenericVariable) (vs : list GenericVariable)
  : list GenericVariable :=
  match vs with
  | [] => []
  | v :: vs' =>
      if bool_decide (v_kind v = k ∧ v_id v = i)
      then f v :: vs'
      else v :: update_variable k i f vs'
  end.

Definition assign_lb (m : ThermoModel) (v : GenericVariable) (x : float) : ThermoModel :=
  with_variables m (update_variable (v_kind v) (v_id v) (set_lb x) (variables m)).

Definition assign_ub (m : ThermoModel) (v : GenericVariable) (x : float) : ThermoModel :=
  with_variables m (update_variable (v_kind v) (v_id v) (set_ub x) (variables m)).

(** Modelled from the spec: [get_solution_value_for_variables(solution,
    variables)], the solution's values of the given variables, by name. *)
Definition get_solution_value_for_variables (sol : Solution)
    (these_vars : list GenericVariable) : gmap string float :=
  filter (fun kv => kv.1 ∈ v_name <$> these_vars) (raw sol).

(** A solution respects the bounds of the variables of a model. *)
Definition respects_bounds (m : ThermoModel) (sol : Solution) : bool :=
  forallb (fun v =>
             match raw sol !! v_name v with
             | Some x => (v_lb v <=? x)%float && (x <=? v_ub v)%float
             | None => true
             end) (variables m).

Definition is_slack_kind (k : VarKind) : bool :=
  match k with
  | NegSlackVariable | PosSlackVariable | NegSlackLC | PosSlackLC => true
  | _ => false
  end.

(** The model has no slack variable yet (it is not itself a slack model). *)
Definition no_slack_variables (m : ThermoModel) : bool :=
  forallb (fun v => negb (is_slack_kind (v_kind v))) (variables m).

(** The string ['\n']. *)
Definition newline : string := String (Ascii.ascii_of_nat 10) EmptyString.

(** The two relaxers work on different entities and kinds of variables. *)
Inductive Relaxer : Type :=
  | ByReaction      (* relax_dgo *)
  | ByConcentration (* relax_lc *).

Definition target_kind (r : Relaxer) : VarKind :=
  match r with ByReaction => DeltaGstd | ByConcentration => LogConcentration end.

Definition neg_slack_kind (r : Relaxer) : VarKind :=
  match r with ByReaction => NegSlackVariable | ByConcentration => NegSlackLC end.

Definition pos_slack_kind (r : Relaxer) : VarKind :=
  match r with ByReaction => PosSlackVariable | ByConcentration => PosSlackLC end.

(** The ids of the entities the read-back loop goes through. *)
Definition entity_ids (r : Relaxer) (m : ThermoModel) : list string :=
  match r with
  | ByReaction => r_id <$> reactions m
  | ByConcentration => m_id <$> metabolites m
  end.

(** The two slack values of the entity [i] in a solution of the slack model:
    the values of its negative and of its positive slack variable. *)
Definition slack_values (r : Relaxer) (slack_model : ThermoModel) (sol : Solution)
    (i : string) (delta_lb delta_ub : float) : Prop :=
  exists neg_var pos_var,
    var_of slack_model (neg_slack_kind r) i = Ok neg_var ∧
    raw sol !! v_name neg_var = Some delta_lb ∧
    var_of slack_model (pos_slack_kind r) i = Ok pos_var ∧
    raw sol !! v_name pos_var = Some delta_ub.

(** The column labels of the report, in the order of the source. *)
Definition report_columns : list string :=
  ["lb_in"; "ub_in"; "lb_change"; "ub_change"; "lb_out"; "ub_out"].

(** ** The relaxers *)

Section Relaxation.

(** [numerics.BIGM_DG] and [numerics.EPSILON]: the module of constants is not
    part of the sources at hand, the two constants are parameters. *)
Variable BIGM_DG : float.
Variable EPSILON : float.

(** The name of the solver variable of a typed variable of a kind, owned by
    the entity of an id (the variable classes are not part of the sources). *)
Variable make_name : VarKind -> string -> string.

(** The solver behind [model.optimize()] and, after a failure,
    [model.solver.status]. *)
Variable solve : ThermoModel -> Solve.
Variable solver_status : ThermoModel -> string.

(** [DataFrame.__str__]. *)
Variable frame_str : DataFrame -> string.

(** Modelled from the spec: [optimize()] returns the solution or raises the
    solver's failure. *)
Definition optimize (m : ThermoModel) : Result Solution :=
  match solve m with
  | Solved sol => Ok sol
  | Failed msg => Raise (SolverError msg)
  end.

(** Modelled from the spec: [add_variable(kind, owner, lb, ub)] creates the
    variable of that kind owned by [hook], enters it among the typed
    variables of the model and returns it; the variable takes its id from
    the hook.  (The solver-side variable is made in the solver of the model
    that the hook belongs to: a [ThermoModel] here holds the typed variables
    with their bounds, not the variable list of its solver.) *)
Definition add_variable `{Hook A} (m : ThermoModel) (k : VarKind) (hook : A)
    (lb ub : float) : ThermoModel * GenericVariable :=
  let v := {| v_kind := k; v_id := hook_id hook; v_name := make_name k (hook_id hook);
              v_lb := lb; v_ub := ub |} in
  (with_variables m (variables m ++ [v]), v).

(** *** [relax_dgo] *)

(** Lines 68-104: the body of [for this_neg_dg in my_neg_dg]; the state is
    the slack model and the objective built so far. *)
Definition relax_dgo_inject (reactions_to_ignore : list string)
    (my_dgo : list GenericVariable)
    (st : ThermoModel * Expr) (this_neg_dg : GenericConstraint)
  : Result (ThermoModel * Expr) :=
  let '(slack_model, objective) := st in
  if bool_decide (c_id this_neg_dg ∈ reactions_to_ignore)
     || negb (contains_id v_id my_dgo (c_id this_neg_dg))
  then Ok st
  else
    let '(slack_model, neg_slack) :=
      add_variable slack_model NegSlackVariable (c_reaction this_neg_dg) 0 BIGM_DG in
    let '(slack_model, pos_slack) :=
      add_variable slack_model PosSlackVariable (c_reaction this_neg_dg) 0 BIGM_DG in
    let subs_dict := subs_dict_of slack_model this_neg_dg in
    let new_expr := subs subs_dict (c_expr this_neg_dg) in
    let new_expr := Add new_expr (Sub (Sym (v_name pos_slack)) (Sym (v_name neg_slack))) in
    let slack_model := remove_constraint slack_model this_neg_dg in
    let slack_model :=
      add_constraint slack_model NegativeDeltaG (c_reaction this_neg_dg) new_expr 0 0 in
    Ok (slack_model, Add objective (Add (Sym (v_name neg_slack)) (Sym (v_name pos_slack)))).

(** Lines 42-47 and 59-113: the slack model, ready to be solved. *)
Definition relax_dgo_slack_model (tmodel : ThermoModel)
    (reactions_to_ignore : list string) (solver : string) : Result ThermoModel :=
  let slack_model := set_solver (deepcopy tmodel) solver in
  let relaxed_model := set_solver (deepcopy tmodel) solver in
  let my_dgo := get_variables_of_type relaxed_model DeltaGstd in
  let my_neg_dg := get_constraints_of_type slack_model NegativeDeltaG in
  '(slack_model, objective) ←
    for_each (relax_dgo_inject reactions_to_ignore my_dgo) my_neg_dg (slack_model, Num 0);
  slack_model ← set_objective slack_model objective;
  let slack_model := repair slack_model in
  Ok (set_direction slack_model "min").

(** Lines 126-159: the body of [for this_reaction in relaxed_model.reactions].
    The state is the relaxed model and the report built so far.  [my_dgo]
    holds the variable objects of the relaxed model itself, so what is read
    through it is the current state of that model. *)
Definition relax_dgo_widen (reactions_to_ignore : list string)
    (my_neg_slacks my_pos_slacks : list GenericVariable)
    (neg_slack_values pos_slack_values : gmap string float)
    (st : ThermoModel * list (string * list float)) (this_reaction : Reaction)
  : Result (ThermoModel * list (string * list float)) :=
  let '(relaxed_model, changes) := st in
  let my_dgo := get_variables_of_type relaxed_model DeltaGstd in
  if bool_decide (r_id this_reaction ∈ reactions_to_ignore)
     || negb (contains_id v_id my_dgo (r_id this_reaction))
  then Ok st
  else
    the_dgo ← get_by_id v_id my_dgo (r_id this_reaction);
    neg_var ← get_by_id v_id my_neg_slacks (r_id this_reaction);
    dgo_delta_lb ← getitem neg_slack_values (v_name neg_var);
    pos_var ← get_by_id v_id my_pos_slacks (r_id this_reaction);
    dgo_delta_ub ← getitem pos_slack_values (v_name pos_var);
    if (0 <? dgo_delta_lb)%float || (0 <? dgo_delta_ub)%float
    then
      let previous_dgo_lb := v_lb the_dgo in
      let previous_dgo_ub := v_ub the_dgo in
      let new_lb := (previous_dgo_lb - (dgo_delta_lb + EPSILON))%float in
      let relaxed_model := assign_lb relaxed_model the_dgo new_lb in
      let new_ub := (previous_dgo_ub + (dgo_delta_ub + EPSILON))%float in
      let relaxed_model := assign_ub relaxed_model the_dgo new_ub in
      Ok (relaxed_model,
          od_set changes (r_id this_reaction)
            [previous_dgo_lb; previous_dgo_ub; dgo_delta_lb; dgo_delta_ub; new_lb; new_ub])
    else Ok st.

(** The row of the report for a variable read as [v], widened by the slack
    values [delta_lb] and [delta_ub], and the variable after the widening. *)
Definition report_row (v : GenericVariable) (delta_lb delta_ub : float) : list float :=
  [v_lb v; v_ub v; delta_lb; delta_ub;
   (v_lb v - (delta_lb + EPSILON))%float; (v_ub v + (delta_ub + EPSILON))%float].

Definition widened (v : GenericVariable) (delta_lb delta_ub : float) : GenericVariable :=
  set_ub (v_ub v + (delta_ub + EPSILON))%float (set_lb (v_lb v - (delta_lb + EPSILON))%float v).

(** The two read-back bodies (this one and that of [relax_lc]) are the same
    text up to the kind of the target variable and the entity iterated; this
    is their common form, over the entity's id. *)
Definition widen (k : VarKind) (to_ignore : list string)
    (my_neg_slacks my_pos_slacks : list GenericVariable)
    (neg_slack_values pos_slack_values : gmap string float)
    (st : ThermoModel * list (string * list float)) (i : string)
  : Result (ThermoModel * list (string * list float)) :=
  let '(relaxed_model, changes) := st in
  let my_vars := get_variables_of_type relaxed_model k in
  if bool_decide (i ∈ to_ignore) || negb (contains_id v_id my_vars i)
  then Ok st
  else
    the_var ← get_by_id v_id my_vars i;
    neg_var ← get_by_id v_id my_neg_slacks i;
    delta_lb ← getitem neg_slack_values (v_name neg_var);
    pos_var ← get_by_id v_id my_pos_slacks i;
    delta_ub ← getitem pos_slack_values (v_name pos_var);
    if (0 <? delta_lb)%float || (0 <? delta_ub)%float
    then
      let new_lb := (v_lb the_var - (delta_lb + EPSILON))%float in
      let new_ub := (v_ub the_var + (delta_ub + EPSILON))%float in
      Ok (assign_ub (assign_lb relaxed_model the_var new_lb) the_var new_ub,
          od_set changes i
            [v_lb the_var; v_ub the_var; delta_lb; delta_ub; new_lb; new_ub])
    else Ok st.

(** Lines 116-159: reading the slack values back onto the relaxed model. *)
Definition relax_dgo_read_back (reactions_to_ignore : list string)
    (relaxed_model slack_model : ThermoModel) (relaxation : Solution)
  : Result (ThermoModel * list (string * list float)) :=
  let my_neg_slacks := get_variables_of_type slack_model NegSlackVariable in
  let my_pos_slacks := get_variables_of_type slack_model PosSlackVariable in
  let neg_slack_values := get_solution_value_for_variables relaxation my_neg_slacks in
  let pos_slack_values := get_solution_value_for_variables relaxation my_pos_slacks in
  for_each
    (relax_dgo_widen reactions_to_ignore my_neg_slacks my_pos_slacks
       neg_slack_values pos_slack_values)
    (reactions relaxed_model) (relaxed_model, []).

(** Lines 50-55 (and 197-202): the probe solve of the input model. *)
Definition probe (tmodel : ThermoModel) : M unit :=
  try_except_SolverError (optimize tmodel)
    (fun SE =>
       let status := solver_status tmodel in
       _ ← emit (LogError SE);
       emit (LogWarning ("Solver status: " +:+ status))).

(** Lines 165-174 (and 329-338): the report table and its log line. *)
Definition format_relaxation (changes : list (string * list float)) : M DataFrame :=
  relax_table ← lift (set_columns (from_dict_index changes) report_columns);
  _ ← emit (LogInfo (newline +:+ frame_str relax_table));
  mret relax_table.

(** Lines 59-176: what follows the probe solve. *)
Definition relax_dgo_after_probe (tmodel : ThermoModel)
    (reactions_to_ignore : list string) (solver : string)
  : M (ThermoModel * ThermoModel * DataFrame) :=
  let relaxed_model := set_solver (deepcopy tmodel) solver in
  slack_model ← lift (relax_dgo_slack_model tmodel reactions_to_ignore solver);
  relaxation ← lift (optimize slack_model);
  '(relaxed_model, changes) ←
    lift (relax_dgo_read_back reactions_to_ignore relaxed_model slack_model relaxation);
  _ ← lift (optimize relaxed_model);
  relax_table ← format_relaxation changes;
  mret (relaxed_model, slack_model, relax_table).

Definition relax_dgo (tmodel : ThermoModel) (reactions_to_ignore : list string)
    (solver : string) : M (ThermoModel * ThermoModel * DataFrame) :=
  _ ← probe tmodel;
  relax_dgo_after_probe tmodel reactions_to_ignore solver.

(** *** [relax_lc] *)

(** Lines 218-233: the body of [for this_lc in my_lc]; the state is the slack
    model, the objective and the two dicts [pos_slack] and [neg_slack].  The
    hook of the two slack variables is the variable [this_lc] itself. *)
Definition relax_lc_add_slack (metabolites_to_ignore : list string)
    (st : ThermoModel * Expr * gmap string GenericVariable * gmap string GenericVariable)
    (this_lc : GenericVariable)
  : Result (ThermoModel * Expr * gmap string GenericVariable * gmap string GenericVariable) :=
  let '(slack_model, objective, pos_slack, neg_slack) := st in
  if bool_decide (v_name this_lc ∈ metabolites_to_ignore)
  then Ok st
  else
    let '(slack_model, neg_var) :=
      add_variable slack_model NegSlackLC this_lc 0 BIGM_DG in
    let neg_slack := <[v_name this_lc := neg_var]> neg_slack in
    let '(slack_model, pos_var) :=
      add_variable slack_model PosSlackLC this_lc 0 BIGM_DG in
    let pos_slack := <[v_name this_lc := pos_var]> pos_slack in
    Ok (slack_model,
        Add objective (Add (Sym (v_name neg_var)) (Sym (v_name pos_var))),
        pos_slack, neg_slack).

(** Lines 249-257: the body of [for this_var in this_neg_dg.constraint.variables];
    the state is [new_expr].  In [RT * stoich * (pos - neg)] the product of
    the two numbers is taken first. *)
Definition relax_lc_inject (slack_model : ThermoModel) (this_neg_dg : GenericConstraint)
    (pos_slack neg_slack : gmap string GenericVariable)
    (new_expr : Expr) (this_var : string) : Result Expr :=
  if negb (bool_decide (is_Some (neg_slack !! this_var)))
  then Ok new_expr
  else
    pos_var ← getitem pos_slack this_var;
    let met_id := v_id pos_var in
    the_met ← get_by_id m_id (metabolites slack_model) met_id;
    stoich ← getitem (r_metabolites (c_reaction this_neg_dg)) (m_id the_met);
    neg_var ← getitem neg_slack this_var;
    Ok (Add new_expr
          (Mul (Num (RT slack_model * stoich)%float)
               (Sub (Sym (v_name pos_var)) (Sym (v_name neg_var))))).

(** Lines 235-267: the body of [for this_neg_dg in my_neg_dg]; the state is
    the slack model. *)
Definition relax_lc_rewrite (my_neg_dg : list GenericConstraint)
    (pos_slack neg_slack : gmap string GenericVariable)
    (slack_model : ThermoModel) (this_neg_dg : GenericConstraint) : Result ThermoModel :=
  if negb (contains_id c_id my_neg_dg (c_id this_neg_dg))
  then Ok slack_model
  else
    let subs_dict := subs_dict_of slack_model this_neg_dg in
    let new_expr := subs subs_dict (c_expr this_neg_dg) in
    new_expr ←
      for_each (relax_lc_inject slack_model this_neg_dg pos_slack neg_slack)
        (expr_variables (c_expr this_neg_dg)) new_expr;
    let slack_model := remove_constraint slack_model this_neg_dg in
    Ok (add_constraint slack_model NegativeDeltaG (c_reaction this_neg_dg) new_expr 0 0).

(** Lines 242-267: the same body without the guard of line 238. *)
Definition relax_lc_rewrite_unguarded
    (pos_slack neg_slack : gmap string GenericVariable)
    (slack_model : ThermoModel) (this_neg_dg : GenericConstraint) : Result ThermoModel :=
  let subs_dict := subs_dict_of slack_model this_neg_dg in
  let new_expr := subs subs_dict (c_expr this_neg_dg) in
  new_expr ←
    for_each (relax_lc_inject slack_model this_neg_dg pos_slack neg_slack)
      (expr_variables (c_expr this_neg_dg)) new_expr;
  let slack_model := remove_constraint slack_model this_neg_dg in
  Ok (add_constraint slack_model NegativeDeltaG (c_reaction this_neg_dg) new_expr 0 0).

(** The constraint of a kind owned by the reaction of an id. *)
Definition cons_of (m : ThermoModel) (k : ConsKind) (i : string) : Result GenericConstraint :=
  get_by_id c_id (get_constraints_of_type m k) i.

(** Lines 189-194 and 207-277: the slack model, ready to be solved. *)
Definition relax_lc_slack_model (tmodel : ThermoModel)
    (metabolites_to_ignore : list string) (solver : string) : Result ThermoModel :=
  let slack_model := set_solver (deepcopy tmodel) solver in
  let relaxed_model := set_solver (deepcopy tmodel) solver in
  let my_lc := get_variables_of_type relaxed_model LogConcentration in
  let my_neg_dg := get_constraints_of_type slack_model NegativeDeltaG in
  '(slack_model, objective, pos_slack, neg_slack) ←
    for_each (relax_lc_add_slack metabolites_to_ignore) my_lc
      (slack_model, Num 0, ∅, ∅);
  slack_model ←
    for_each (relax_lc_rewrite my_neg_dg pos_slack neg_slack) my_neg_dg slack_model;
  slack_model ← set_objective slack_model objective;
  let slack_model := repair slack_model in
  Ok (set_direction slack_model "min").

(** Lines 290-323: the body of [for this_met in relaxed_model.metabolites]. *)
Definition relax_lc_widen (metabolites_to_ignore : list string)
    (my_neg_slacks my_pos_slacks : list GenericVariable)
    (neg_slack_values pos_slack_values : gmap string float)
    (st : ThermoModel * list (string * list float)) (this_met : Metabolite)
  : Result (ThermoModel * list (string * list float)) :=
  let '(relaxed_model, changes) := st in
  let my_lc := get_variables_of_type relaxed_model LogConcentration in
  if bool_decide (m_id this_met ∈ metabolites_to_ignore)
     || negb (contains_id v_id my_lc (m_id this_met))
  then Ok st
  else
    the_lc ← get_by_id v_id my_lc (m_id this_met);
    neg_var ← get_by_id v_id my_neg_slacks (m_id this_met);
    lc_delta_lb ← getitem neg_slack_values (v_name neg_var);
    pos_var ← get_by_id v_id my_pos_slacks (m_id this_met);
    lc_delta_ub ← getitem pos_slack_values (v_name pos_var);
    if (0 <? lc_delta_lb)%float || (0 <? lc_delta_ub)%float
    then
      let previous_lc_lb := v_lb the_lc in
      let previous_lc_ub := v_ub the_lc in
      let new_lb := (previous_lc_lb - (lc_delta_lb + EPSILON))%float in
      let relaxed_model := assign_lb relaxed_model the_lc new_lb in
      let new_ub := (previous_lc_ub + (lc_delta_ub + EPSILON))%float in
      let relaxed_model := assign_ub relaxed_model the_lc new_ub in
      Ok (relaxed_model,
          od_set changes (m_id this_met)
            [previous_lc_lb; previous_lc_ub; lc_delta_lb; lc_delta_ub; new_lb; new_ub])
    else Ok st.

(** Lines 280-323. *)
Definition relax_lc_read_back (metabolites_to_ignore : list string)
    (relaxed_model slack_model : ThermoModel) (relaxation : Solution)
  : Result (ThermoModel * list (string * list float)) :=
  let my_neg_slacks := get_variables_of_type slack_model NegSlackLC in
  let my_pos_slacks := get_variables_of_type slack_model PosSlackLC in
  let neg_slack_values := get_solution_value_for_variables relaxation my_neg_slacks in
  let pos_slack_values := get_solution_value_for_variables relaxation my_pos_slacks in
  for_each
    (relax_lc_widen metabolites_to_ignore my_neg_slacks my_pos_slacks
       neg_slack_values pos_slack_values)
    (metabolites relaxed_model) (relaxed_model, []).

(** Lines 207-340: what follows the probe solve. *)
Definition relax_lc_after_probe (tmodel : ThermoModel)
    (metabolites_to_ignore : list string) (solver : string)
  : M (ThermoModel * ThermoModel * DataFrame) :=
  let relaxed_model := set_solver (deepcopy tmodel) solver in
  slack_model ← lift (relax_lc_slack_model tmodel metabolites_to_ignore solver);
  relaxation ← lift (optimize slack_model);
  '(relaxed_model, changes) ←
    lift (relax_lc_read_back metabolites_to_ignore relaxed_model slack_model relaxation);
  _ ← lift (optimize relaxed_model);
  relax_table ← format_relaxation changes;
  mret (relaxed_model, slack_model, relax_table).

Definition relax_lc (tmodel : ThermoModel) (metabolites_to_ignore : list string)
    (solver : string) : M (ThermoModel * ThermoModel * DataFrame) :=
  _ ← probe tmodel;
  relax_lc_after_probe tmodel metabolites_to_ignore solver.

(** Either relaxer, and its slack model. *)
Definition relax (r : Relaxer) : ThermoModel -> list string -> string ->
    M (ThermoModel * ThermoModel * DataFrame) :=
  match r with ByReaction => relax_dgo | ByConcentration => relax_lc end.

Definition relax_after_probe (r : Relaxer) : ThermoModel -> list string -> string ->
    M (ThermoModel * ThermoModel * DataFrame) :=
  match r with
  | ByReaction => relax_dgo_after_probe
  | ByConcentration => relax_lc_after_probe
  end.

Definition slack_model_of (r : Relaxer) : ThermoModel -> list string -> string ->
    Result ThermoModel :=
  match r with
  | ByReaction => relax_dgo_slack_model
  | ByConcentration => relax_lc_slack_model
  end.

Definition read_back (r : Relaxer) : list string -> ThermoModel -> ThermoModel ->
    Solution -> Result (ThermoModel * list (string * list float)) :=
  match r with
  | ByReaction => relax_dgo_read_back
  | ByConcentration => relax_lc_read_back
  end.

End Relaxation.

(** ** Vocabulary of the properties *)

(** The fields that the bounds assignments leave alone. *)
Definition same_but_variables (m m' : ThermoModel) : Prop :=
  reactions m = reactions m' ∧ metabolites m = metabolites m' ∧
  constraints m = constraints m' ∧ RT m = RT m' ∧ objective m = objective m' ∧
  direction m = direction m' ∧ solver m = solver m'.

(** A variable of a slack model is one of the input model or a slack
    variable made by the relaxer, with the bounds [0] and [BIGM_DG]. *)
Definition old_or_slack (BIGM_DG : float) (tmodel : ThermoModel) (v : GenericVariable)
  : Prop :=
  v ∈ variables tmodel ∨
  (is_slack_kind (v_kind v) = true ∧ v_lb v = 0%float ∧ v_ub v = BIGM_DG).

Section ReadBackInvariants.

Variable EPSILON : float.
Variable k : VarKind.
Variable to_ignore : list string.
Variables my_neg_slacks my_pos_slacks : list GenericVariable.
Variables neg_slack_values pos_slack_values : gmap string float.

(** What the slack solution says of the entity [i]: its two slack variables
    and their values. *)
Definition slack_reading (i : string) (delta_lb delta_ub : float) : Prop :=
  exists neg_var pos_var,
    get_by_id v_id my_neg_slacks i = Ok neg_var ∧
    neg_slack_values !! v_name neg_var = Some delta_lb ∧
    get_by_id v_id my_pos_slacks i = Ok pos_var ∧
    pos_slack_values !! v_name pos_var = Some delta_ub.

(** The state after the entities [pre], from the model [rm0] and an empty
    report, when the whole loop runs over [ids]. *)
Definition widen_inv (rm0 : ThermoModel) (ids pre : list string)
    (st : ThermoModel * list (string * list float)) : Prop :=
  same_but_variables st.1 rm0 ∧
  (forall k' i', k' ≠ k ∨ i' ∉ st.2.*1 -> var_of st.1 k' i' = var_of rm0 k' i') ∧
  st.2.*1 `sublist_of` pre ∧
  NoDup st.2.*1 ∧
  (forall i row, (i, row) ∈ st.2 ->
     (i ∉ to_ignore) ∧
     exists v delta_lb delta_ub,
       slack_reading i delta_lb delta_ub ∧
       ((0 <? delta_lb)%float || (0 <? delta_ub)%float) = true ∧
       row = report_row EPSILON v delta_lb delta_ub ∧
       (NoDup ids ->
        var_of rm0 k i = Ok v ∧
        var_of st.1 k i = Ok (widened EPSILON v delta_lb delta_ub))).

(** The loop writes a row for every entity that it does not skip and that
    has a strictly positive slack value, and only for entities that have a
    variable of the kind. *)
Definition widen_inv_rows (rm0 : ThermoModel) (pre : list string)
    (st : ThermoModel * list (string * list float)) : Prop :=
  (forall k' i',
     contains_id v_id (get_variables_of_type st.1 k') i' =
     contains_id v_id (get_variables_of_type rm0 k') i') ∧
  (forall i delta_lb delta_ub,
     i ∈ pre -> i ∉ to_ignore ->
     contains_id v_id (get_variables_of_type rm0 k) i = true ->
     slack_reading i delta_lb delta_ub ->
     ((0 <? delta_lb)%float || (0 <? delta_ub)%float) = true ->
     i ∈ st.2.*1) ∧
  (forall i, i ∈ st.2.*1 -> contains_id v_id (get_variables_of_type rm0 k) i = true).

End ReadBackInvariants.

(** The slack variable of a kind that [add_variable] makes for the entity of
    an id (lines 76-83, 222-230). *)
Definition slack_variable (BIGM_DG : float) (make_name : VarKind -> string -> string)
    (k : VarKind) (i : string) : GenericVariable :=
  {| v_kind := k; v_id := i; v_name := make_name k i; v_lb := 0; v_ub := BIGM_DG |}.

(** The ids of the entities that the slack-injection pass gives a slack pair:
    for [relax_dgo], one per constraint that passes the test of lines 71-72;
    for [relax_lc], one per log-concentration variable that passes the test
    of line 219. *)
Definition slack_pair_ids (r : Relaxer) (tmodel : ThermoModel) (to_ignore : list string)
  : list string :=
  match r with
  | ByReaction =>
      c_id <$>
        filter (fun c => (c_id c ∉ to_ignore) ∧
                         c_id c ∈ v_id <$> get_variables_of_type tmodel DeltaGstd)
          (get_constraints_of_type tmodel NegativeDeltaG)
  | ByConcentration =>
      v_id <$>
        filter (fun v => v_name v ∉ to_ignore)
          (get_variables_of_type tmodel LogConcentration)
  end.

(** A variable [v] of the relaxed model against the variable [v0] of the
    input model at the same place: the same kind, owner and name, and the
    same bounds too unless [v0] is of the relaxed kind [k] and its owner has
    a row in the report (the rows have the ids [keys]). *)
Definition bounds_only_change (k : VarKind) (keys : list string)
    (v v0 : GenericVariable) : Prop :=
  v_kind v = v_kind v0 ∧ v_id v = v_id v0 ∧ v_name v = v_name v0 ∧
  (v_kind v0 ≠ k ∨ v_id v0 ∉ keys -> v = v0).

(** The slack pair of an entity, negative slack first as the relaxers make
    them, and the objective that grows by [neg + pos] per pair from [0]
    (lines 66 and 104, 213 and 233). *)
Definition slack_pair (BIGM_DG : float) (make_name : VarKind -> string -> string)
    (r : Relaxer) (i : string) : list GenericVariable :=
  [slack_variable BIGM_DG make_name (neg_slack_kind r) i;
   slack_variable BIGM_DG make_name (pos_slack_kind r) i].

Definition slack_objective (make_name : VarKind -> string -> string)
    (r : Relaxer) (ids : list string) : Expr :=
  fold_left
    (fun objective i =>
       Add objective (Add (Sym (make_name (neg_slack_kind r) i))
                          (Sym (make_name (pos_slack_kind r) i))))
    ids (Num 0).

(** The fields that the slack-injection pass leaves alone. *)
Definition same_but_variables_and_constraints (m m' : ThermoModel) : Prop :=
  reactions m = reactions m' ∧ metabolites m = metabolites m' ∧ RT m = RT m' ∧
  direction m = direction m' ∧ solver m = solver m'.

(** What the injection pass of [relax_dgo] makes of a constraint that it
    relaxes (lines 88-101): the expression plus [pos - neg], fixed at zero. *)
Definition relax_dgo_rewritten (make_name : VarKind -> string -> string)
    (c : GenericConstraint) : GenericConstraint :=
  {| c_kind := NegativeDeltaG; c_reaction := c_reaction c;
     c_expr := Add (c_expr c)
                 (Sub (Sym (make_name PosSlackVariable (c_id c)))
                      (Sym (make_name NegSlackVariable (c_id c))));
     c_lb := 0; c_ub := 0 |}.

(** The constraint of the slack model of [relax_dgo] that stands for the
    constraint [c] of the input model. *)
Definition relax_dgo_constraint (make_name : VarKind -> string -> string)
    (tmodel : ThermoModel) (to_ignore : list string) (c : GenericConstraint)
  : GenericConstraint :=
  if decide ((c_id c ∉ to_ignore) ∧
             c_id c ∈ v_id <$> get_variables_of_type tmodel DeltaGstd)
  then relax_dgo_rewritten make_name c
  else c.

(** ** A two-reaction model, for the concrete runs

    R1: M1 -> M2 and R2: 2 M1 -> M2, each with a standard Gibbs energy
    variable and a constraint [DG - DGo - RT * sum(n * LC) = 0]. *)

Module Example.

Definition RT_value : float := 2.4789%float.
Definition BIGM_DG : float := 1000%float.
Definition EPSILON : float := 1e-9%float.

Definition prefix (k : VarKind) : string :=
  match k with
  | DeltaGstd => "DGo_"
  | LogConcentration => "LC_"
  | NegSlackVariable => "NegSlack_"
  | PosSlackVariable => "PosSlack_"
  | NegSlackLC => "NegSlackLC_"
  | PosSlackLC => "PosSlackLC_"
  | OtherVariable => "DG_"
  end.

Definition make_name (k : VarKind) (i : string) : string := prefix k +:+ i.

Definition var (k : VarKind) (i : string) (lb ub : float) : GenericVariable :=
  {| v_kind := k; v_id := i; v_name := make_name k i; v_lb := lb; v_ub := ub |}.

Definition R1 : Reaction :=
  {| r_id := "R1"; r_metabolites := {[ "M1" := (-1)%float; "M2" := 1%float ]} |}.
Definition R2 : Reaction :=
  {| r_id := "R2"; r_metabolites := {[ "M1" := (-2)%float; "M2" := 1%float ]} |}.

(** [DG_r - DGo_r - RT * (n1 * LC_M1 + n2 * LC_M2)]. *)
Definition neg_dg_expr (r : string) (n1 n2 : float) : Expr :=
  Sub (Sub (Sym ("DG_" +:+ r)) (Sym ("DGo_" +:+ r)))
      (Mul (Num RT_value)
           (Add (Mul (Num n1) (Sym "LC_M1")) (Mul (Num n2) (Sym "LC_M2")))).

Definition G (r : Reaction) (n1 n2 : float) : GenericConstraint :=
  {| c_kind := NegativeDeltaG; c_reaction := r;
     c_expr := neg_dg_expr (r_id r) n1 n2; c_lb := 0; c_ub := 0 |}.

Definition tmodel : ThermoModel :=
  {| reactions := [R1; R2];
     metabolites := [ {| m_id := "M1" |}; {| m_id := "M2" |} ];
     variables :=
       [ var OtherVariable "R1" (-1000) 0; var OtherVariable "R2" (-1000) 0;
         var DeltaGstd "R1" (-50) 50; var DeltaGstd "R2" (-10) 10;
         var LogConcentration "M1" (-10) (-2); var LogConcentration "M2" (-10) (-2) ];
     constraints := [ G R1 (-1) 1; G R2 (-2) 1 ];
     RT := RT_value;
     objective := Num 0;
     direction := "max";
     solver := "optlang-cplex" |}.

(** The slack solution of the runs: R1 and M1 need a lower lower bound, M2
    a higher upper bound. *)
Definition slack_solution : Solution :=
  {| raw := {[ "NegSlack_R1" := 1.5%float; "PosSlack_R1" := 0%float;
               "NegSlack_R2" := 0%float; "PosSlack_R2" := 0%float;
               "NegSlackLC_M1" := 0.5%float; "PosSlackLC_M1" := 0%float;
               "NegSlackLC_M2" := 0%float; "PosSlackLC_M2" := 0.25%float ]} |}.

(** A solution with every slack at zero. *)
Definition zero_solution : Solution :=
  {| raw := {[ "NegSlack_R1" := 0%float; "PosSlack_R1" := 0%float;
               "NegSlack_R2" := 0%float; "PosSlack_R2" := 0%float;
               "NegSlackLC_M1" := 0%float; "PosSlackLC_M1" := 0%float;
               "NegSlackLC_M2" := 0%float; "PosSlackLC_M2" := 0%float ]} |}.

Definition has_slack (m : ThermoModel) : bool :=
  existsb (fun v => is_slack_kind (v_kind v)) (variables m).

(** A solver that fails on the input model (the only one bound to cplex),
    gives [sol] for a model with slack variables and solves the rest. *)
Definition solver_giving (sol : Solution) (m : ThermoModel) : Solve :=
  if has_slack m then Solved sol
  else if bool_decide (solver m = "optlang-cplex") then Failed "infeasible"
  else Solved {| raw := ∅ |}.

Definition solve : ThermoModel -> Solve := solver_giving slack_solution.
Definition solver_status (m : ThermoModel) : string := "infeasible".
Definition frame_str (df : DataFrame) : string := "".

(** A solver that fails on the slack model, and one that solves nothing but
    the slack model. *)
Definition solve_failing_on_slack (m : ThermoModel) : Solve :=
  if has_slack m then Failed "no slack solution" else solve m.

Definition solve_only_slack (m : ThermoModel) : Solve :=
  if has_slack m then Solved slack_solution else Failed "infeasible".

(** The parts of the outcome of a run, for the runs that return. *)
Definition relaxed_of (x : list LogRecord * Result (ThermoModel * ThermoModel * DataFrame))
  : ThermoModel :=
  match x.2 with Ok (rm, _, _) => rm | Raise _ => tmodel end.

Definition slack_of (x : list LogRecord * Result (ThermoModel * ThermoModel * DataFrame))
  : ThermoModel :=
  match x.2 with Ok (_, sm, _) => sm | Raise _ => tmodel end.

Definition table_of (x : list LogRecord * Result (ThermoModel * ThermoModel * DataFrame))
  : DataFrame :=
  match x.2 with
  | Ok (_, _, tbl) => tbl
  | Raise _ => {| df_index := []; df_columns := []; df_values := [] |}
  end.

(** Runs of the two relaxers with the solver [s] and the ignore list [ig]. *)
Definition run (s : ThermoModel -> Solve) (r : Relaxer) (ig : list string)
  : list LogRecord * Result (ThermoModel * ThermoModel * DataFrame) :=
  relax BIGM_DG EPSILON make_name s solver_status frame_str r tmodel ig "optlang-glpk" [].

(** The state of [relax_lc] after its first loop (no metabolite ignored), and
    the parts of it. *)
Definition lc_slacks
  : Result (ThermoModel * Expr * gmap string GenericVariable * gmap string GenericVariable) :=
  for_each (relax_lc_add_slack BIGM_DG make_name [])
    (get_variables_of_type tmodel LogConcentration)
    (set_solver tmodel "optlang-glpk", Num 0, ∅, ∅).

Definition lc_slack_model : ThermoModel :=
  match lc_slacks with Ok (sm, _, _, _) => sm | Raise _ => tmodel end.
Definition lc_pos_slack : gmap string GenericVariable :=
  match lc_slacks with Ok (_, _, pos, _) => pos | Raise _ => ∅ end.
Definition lc_neg_slack : gmap string GenericVariable :=
  match lc_slacks with Ok (_, _, _, neg) => neg | Raise _ => ∅ end.

(** The constraint of R2 rewritten by [relax_lc]. *)
Definition lc_rewritten_R2 : ThermoModel :=
  match relax_lc_rewrite (get_constraints_of_type lc_slack_model NegativeDeltaG)
          lc_pos_slack lc_neg_slack lc_slack_model (G R2 (-2) 1) with
  | Ok sm => sm
  | Raise _ => tmodel
  end.

End Example.

(** * Properties *)

(** ** Loops *)

Lemma for_each_fmap {S A B} (f : A -> B) (body : S -> B -> Result S) (l : list A) (s : S) :
  for_each (fun s x => body s (f x)) l s = for_each body (f <$> l) s.
Proof.
  revert s. induction l as [|x l IH]; intros s; simpl; [done|].
  destruct (body s (f x)); [apply IH|done].
Qed.

Lemma for_each_ext {S A} (body body' : S -> A -> Result S) (l : list A) (s : S) :
  (forall s x, x ∈ l -> body s x = body' s x) ->
  for_each body l s = for_each body' l s.
Proof.
  revert s. induction l as [|x l IH]; intros s Hext; simpl; [done|].
  rewrite <- (Hext s x) by apply list_elem_of_here.
  destruct (body s x); [|done].
  apply IH. intros s' y Hy. apply Hext. by apply list_elem_of_further.
Qed.

(** The invariant rule of a loop: [Inv pre s] speaks of the state [s] reached
    after the elements [pre]. *)
Lemma for_each_prefix_ind {S A} (Inv : list A -> S -> Prop)
    (body : S -> A -> Result S) (l : list A) (s s' : S) :
  Inv [] s ->
  (forall pre x post s1 s2,
     l = pre ++ x :: post -> Inv pre s1 -> body s1 x = Ok s2 -> Inv (pre ++ [x]) s2) ->
  for_each body l s = Ok s' ->
  Inv l s'.
Proof.
  intros Hinit Hstep.
  assert (forall rest pre s1,
            l = pre ++ rest -> Inv pre s1 -> for_each body rest s1 = Ok s' -> Inv l s')
    as Haux.
  { induction rest as [|x rest IH]; intros pre s1 Hl Hpre Hrun; simpl in Hrun.
    - rewrite app_nil_r in Hl. by simplify_eq.
    - destruct (body s1 x) as [s2|] eqn:Hbody; [|done].
      apply (IH (pre ++ [x]) s2); [by rewrite <- assoc by apply _| |done].
      by eapply Hstep. }
  by apply (Haux l [] s).
Qed.

Lemma for_each_total {S A} (body : S -> A -> Result S) (l : list A) (s : S) :
  (forall s x, exists s', body s x = Ok s') ->
  exists s', for_each body l s = Ok s'.
Proof.
  intros Htotal. revert s. induction l as [|x l IH]; intros s; simpl; [by eexists|].
  destruct (Htotal s x) as [s' ->]. apply IH.
Qed.

(** ** Ordered dicts *)

Lemma od_set_keys {V} (d : list (string * V)) k v :
  (od_set d k v).*1 = if bool_decide (k ∈ d.*1) then d.*1 else d.*1 ++ [k].
Proof.
  unfold od_set. case_bool_decide as Hk.
  - clear Hk. induction d as [|[k' v'] d IH]; [done|].
    rewrite !fmap_cons, IH. by case_bool_decide; simplify_eq/=.
  - by rewrite fmap_app.
Qed.

Lemma elem_of_od_set {V} (d : list (string * V)) k v i row :
  (i, row) ∈ od_set d k v -> (i = k ∧ row = v) ∨ (i ≠ k ∧ (i, row) ∈ d).
Proof.
  unfold od_set. case_bool_decide as Hk.
  - intros ([i' row'] & Heq & Hin)%list_elem_of_fmap. simpl in Heq.
    case_bool_decide; simplify_eq/=; [by left|by right].
  - intros [Hin|Heq%list_elem_of_singleton]%elem_of_app; [|by left; simplify_eq].
    right. split; [|done]. intros ->. apply Hk.
    apply list_elem_of_fmap. by exists (k, row).
Qed.

(** ** Collections and typed variables *)

Lemma get_by_id_Ok {A} (id_of : A -> string) (l : list A) i x :
  get_by_id id_of l i = Ok x -> x ∈ l ∧ id_of x = i.
Proof.
  unfold get_by_id. destruct (head _) as [y|] eqn:Hhead; [|done].
  intros ?; simplify_eq. apply head_Some_elem_of, list_elem_of_filter in Hhead.
  by destruct Hhead.
Qed.

Lemma get_by_id_contains {A} (id_of : A -> string) (l : list A) i :
  contains_id id_of l i = true -> exists x, get_by_id id_of l i = Ok x.
Proof.
  unfold contains_id, get_by_id. intros Hin%bool_decide_eq_true.
  apply list_elem_of_fmap in Hin as (x & -> & Hx).
  destruct (head _) as [y|] eqn:Hhead; [by eexists|].
  apply head_None in Hhead.
  assert (x ∈ filter (fun y => id_of y = id_of x) l) as Hf
    by by apply list_elem_of_filter.
  rewrite Hhead in Hf. by apply elem_of_nil in Hf.
Qed.

Lemma var_of_Ok m k i v :
  var_of m k i = Ok v -> v ∈ variables m ∧ v_kind v = k ∧ v_id v = i.
Proof.
  intros [Hin Hid]%get_by_id_Ok.
  apply list_elem_of_filter in Hin. naive_solver.
Qed.

Lemma head_filter_update k i f vs k' i' :
  (forall v, v_kind (f v) = v_kind v ∧ v_id (f v) = v_id v) ->
  head (filter (fun v => v_id v = i')
          (filter (fun v => v_kind v = k') (update_variable k i f vs))) =
  if decide (k = k' ∧ i = i')
  then f <$> head (filter (fun v => v_id v = i') (filter (fun v => v_kind v = k') vs))
  else head (filter (fun v => v_id v = i') (filter (fun v => v_kind v = k') vs)).
Proof.
  intros Hf. rewrite !list_filter_filter.
  induction vs as [|v vs IH]; simpl; [by case_decide|].
  destruct (Hf v) as [Hk Hi].
  case_bool_decide as Hhit.
  - destruct Hhit as [<- <-].
    rewrite !filter_cons. rewrite Hk, Hi.
    repeat case_decide; naive_solver.
  - rewrite !filter_cons.
    destruct (decide (v_id v = i' ∧ v_kind v = k')) as [[<- <-]|Hmiss].
    + case_decide; naive_solver.
    + apply IH.
Qed.

Lemma var_of_assign_lb m v x k' i' :
  var_of (assign_lb m v x) k' i' =
  if decide (v_kind v = k' ∧ v_id v = i')
  then match var_of m k' i' with Ok w => Ok (set_lb x w) | Raise e => Raise e end
  else var_of m k' i'.
Proof.
  unfold var_of, get_by_id, get_variables_of_type, assign_lb. simpl.
  rewrite head_filter_update by done.
  case_decide; [|done]. by destruct (head _).
Qed.

Lemma var_of_assign_ub m v x k' i' :
  var_of (assign_ub m v x) k' i' =
  if decide (v_kind v = k' ∧ v_id v = i')
  then match var_of m k' i' with Ok w => Ok (set_ub x w) | Raise e => Raise e end
  else var_of m k' i'.
Proof.
  unfold var_of, get_by_id, get_variables_of_type, assign_ub. simpl.
  rewrite head_filter_update by done.
  case_decide; [|done]. by destruct (head _).
Qed.

Lemma ids_update k i f vs k' :
  (forall v, v_kind (f v) = v_kind v ∧ v_id (f v) = v_id v) ->
  v_id <$> filter (fun v => v_kind v = k') (update_variable k i f vs) =
  v_id <$> filter (fun v => v_kind v = k') vs.
Proof.
  intros Hf. induction vs as [|v vs IH]; simpl; [done|].
  destruct (Hf v) as [Hk Hi].
  case_bool_decide.
  - rewrite !filter_cons, Hk. case_decide; [|done]. by rewrite !fmap_cons, Hi.
  - rewrite !filter_cons. case_decide; [|done]. by rewrite !fmap_cons, IH.
Qed.

Lemma contains_assign m v x y k' i' :
  contains_id v_id (get_variables_of_type (assign_ub (assign_lb m v x) v y) k') i' =
  contains_id v_id (get_variables_of_type m k') i'.
Proof.
  unfold contains_id, get_variables_of_type, assign_ub, assign_lb. simpl.
  by rewrite !ids_update.
Qed.

(** ** The read-back loop *)

Section ReadBack.

Variable EPSILON : float.
Variable k : VarKind.
Variable to_ignore : list string.
Variables my_neg_slacks my_pos_slacks : list GenericVariable.
Variables neg_slack_values pos_slack_values : gmap string float.

Local Abbreviation step :=
  (widen EPSILON k to_ignore my_neg_slacks my_pos_slacks
     neg_slack_values pos_slack_values).
Local Abbreviation reading :=
  (slack_reading my_neg_slacks my_pos_slacks neg_slack_values pos_slack_values).
Local Abbreviation inv :=
  (widen_inv EPSILON k to_ignore my_neg_slacks my_pos_slacks
     neg_slack_values pos_slack_values).
Local Abbreviation inv_rows :=
  (widen_inv_rows k to_ignore my_neg_slacks my_pos_slacks
     neg_slack_values pos_slack_values).

(** One turn of the loop either leaves the state alone or widens the variable
    of the entity and writes its row. *)
Lemma widen_step rm ch i rm' ch' :
  step (rm, ch) i = Ok (rm', ch') ->
  (rm' = rm ∧ ch' = ch) ∨
  ∃ v delta_lb delta_ub,
    (i ∉ to_ignore) ∧ var_of rm k i = Ok v ∧
    reading i delta_lb delta_ub ∧
    ((0 <? delta_lb)%float || (0 <? delta_ub)%float) = true ∧
    rm' = assign_ub (assign_lb rm v (v_lb v - (delta_lb + EPSILON))%float) v
            (v_ub v + (delta_ub + EPSILON))%float ∧
    ch' = od_set ch i (report_row EPSILON v delta_lb delta_ub).
Proof.
  unfold widen. fold (var_of rm k i).
  destruct (bool_decide (i ∈ to_ignore)) eqn:Hig; simpl; [left; by simplify_eq|].
  destruct (contains_id _ _ _); simpl; [|left; by simplify_eq].
  unfold mbind, Result_bind.
  destruct (var_of rm k i) as [v|] eqn:Hv; [|done].
  destruct (get_by_id v_id my_neg_slacks i) as [nvar|] eqn:Hn; [|done].
  destruct (getitem neg_slack_values _) as [dl|] eqn:Hdl; [|done].
  destruct (get_by_id v_id my_pos_slacks i) as [pvar|] eqn:Hp; [|done].
  destruct (getitem pos_slack_values _) as [du|] eqn:Hdu; [|done].
  destruct ((0 <? dl)%float || (0 <? du)%float) eqn:Hpos; [|left; by simplify_eq].
  intros ?; simplify_eq. right. exists v, dl, du.
  apply bool_decide_eq_false in Hig.
  unfold getitem in Hdl, Hdu.
  destruct (neg_slack_values !! _) eqn:?; [|done].
  destruct (pos_slack_values !! _) eqn:?; [|done].
  simplify_eq. repeat split; try done. by exists nvar, pvar.
Qed.


Lemma var_of_widen rm v delta_lb delta_ub k' i' :
  var_of rm k (v_id v) = Ok v -> v_kind v = k ->
  var_of (assign_ub (assign_lb rm v (v_lb v - (delta_lb + EPSILON))%float) v
            (v_ub v + (delta_ub + EPSILON))%float) k' i' =
  if decide (k = k' ∧ v_id v = i')
  then Ok (widened EPSILON v delta_lb delta_ub)
  else var_of rm k' i'.
Proof.
  intros Hv Hk. rewrite var_of_assign_ub, var_of_assign_lb. rewrite Hk.
  case_decide as Hhit; [|done]. destruct Hhit as [<- <-]. by rewrite Hv.
Qed.

Lemma widen_loop rm0 ids rm ch :
  for_each step ids (rm0, []) = Ok (rm, ch) ->
  inv rm0 ids ids (rm, ch).
Proof.
  apply (for_each_prefix_ind (inv rm0 ids)).
  { unfold inv, same_but_variables. simpl.
    refine (conj _ (conj _ (conj _ (conj _ _)))).
    - done.
    - done.
    - constructor.
    - constructor.
    - intros i row Hin. by apply elem_of_nil in Hin. }
  intros pre i post [rm1 ch1] [rm2 ch2] Hids (Hsame & Hframe & Hsub & Hnodup & Hrows) Hstep.
  simpl in *.
  apply widen_step in Hstep as [[-> ->]|(v & dl & du & Hig & Hv & Hread & Hpos & -> & ->)].
  { unfold inv. simpl.
    refine (conj _ (conj _ (conj _ (conj _ _)))); try done. by apply sublist_inserts_r. }
  destruct (var_of_Ok _ _ _ _ Hv) as (_ & Hkind & <-).
  pose proof (fun k' i' => var_of_widen rm1 v dl du k' i' Hv Hkind) as Hlook.
  unfold inv. simpl. rewrite od_set_keys.
  refine (conj _ (conj _ (conj _ (conj _ _)))).
  - apply Hsame.
  - intros k' i' Hfree. rewrite Hlook.
    destruct (decide (k = k' ∧ v_id v = i')) as [[<- <-]|Hmiss].
    + destruct Hfree as [?|Hfree]; [done|].
      exfalso. apply Hfree. case_bool_decide; [done|].
      apply elem_of_app. right. by apply list_elem_of_singleton.
    + apply Hframe. destruct Hfree as [?|Hfree]; [by left|right].
      intros Hin. apply Hfree. case_bool_decide; [done|].
      apply elem_of_app. by left.
  - case_bool_decide.
    + by apply sublist_inserts_r.
    + by apply sublist_app.
  - case_bool_decide; [done|].
    apply NoDup_app. split_and!; [done| |apply NoDup_singleton].
    intros x Hx ->%list_elem_of_singleton. done.
  - intros j row Hin.
    apply elem_of_od_set in Hin as [[-> ->]|[Hne Hin]].
    + split; [done|]. exists v, dl, du. split_and!; try done.
      intros Hnd. rewrite Hlook. rewrite decide_True by done. split; [|done].
      rewrite <- Hframe; [done|]. right. intros Hin.
      rewrite Hids in Hnd. apply NoDup_app in Hnd as (_ & Hdisj & _).
      apply (Hdisj (v_id v)); [|apply list_elem_of_here].
      by eapply elem_of_sublist.
    + apply Hrows in Hin as [Hj (w & dl' & du' & Hread' & Hpos' & -> & Hw)].
      split; [done|]. exists w, dl', du'. split_and!; try done.
      intros Hnd. destruct (Hw Hnd) as [Hw0 Hw1]. split; [done|].
      rewrite Hlook. by rewrite decide_False by naive_solver.
Qed.


End ReadBack.

Lemma for_each_inv {S A} (P : S -> Prop) (body : S -> A -> Result S) (l : list A) (s s' : S) :
  P s ->
  (forall s1 x s2, x ∈ l -> P s1 -> body s1 x = Ok s2 -> P s2) ->
  for_each body l s = Ok s' ->
  P s'.
Proof.
  intros Hinit Hstep. apply (for_each_prefix_ind (fun _ => P)); [done|].
  intros pre x post s1 s2 -> Hs1 Hbody. eapply Hstep; [|done..].
  apply elem_of_app. right. apply list_elem_of_here.
Qed.

(** ** The table *)

Lemma format_relaxation_Ok frame_str ch log0 log tbl :
  format_relaxation frame_str ch log0 = (log, Ok tbl) ->
  df_rows tbl = ch ∧ df_index tbl = ch.*1 ∧
  df_columns tbl = StrLabel <$> report_columns.
Proof.
  unfold format_relaxation, mbind, M_bind, lift, set_columns, emit, mret, M_ret.
  case_bool_decide; [|done]. simpl. intros ?; simplify_eq.
  unfold df_rows. simpl. by rewrite zip_fst_snd.
Qed.

(** A frame built from an empty report has no column to label. *)
Lemma format_relaxation_empty frame_str log0 :
  format_relaxation frame_str [] log0 = (log0, Raise (ValueError "Length mismatch")).
Proof. reflexivity. Qed.

(** ** The objective *)

Lemma set_objective_Ok m value m' :
  set_objective m value = Ok m' ->
  m' = with_objective m value ∧ forall x, value ≠ Num x.
Proof. destruct value; simpl; intros ?; simplify_eq; by split. Qed.

(** ** The slack model and the runs of the relaxers *)

Section Runs.

Variable BIGM_DG : float.
Variable EPSILON : float.
Variable make_name : VarKind -> string -> string.
Variable solve : ThermoModel -> Solve.
Variable solver_status : ThermoModel -> string.
Variable frame_str : DataFrame -> string.

Lemma relax_dgo_slack_model_variables tmodel ig solver sm :
  relax_dgo_slack_model BIGM_DG make_name tmodel ig solver = Ok sm ->
  forall v, v ∈ variables sm -> old_or_slack BIGM_DG tmodel v.
Proof.
  unfold relax_dgo_slack_model, mbind, Result_bind.
  destruct (for_each _ _ _) as [[sm0 obj]|] eqn:Hloop; [|done].
  destruct (set_objective sm0 obj) as [sm1|] eqn:Hset; [|done].
  apply set_objective_Ok in Hset as [-> _].
  intros ?; simplify_eq. simpl.
  revert Hloop.
  apply (for_each_inv (fun st => forall v, v ∈ variables st.1 -> old_or_slack BIGM_DG tmodel v)).
  { simpl. intros v Hv. by left. }
  intros [sm1 obj1] c [sm2 obj2] _ Hinv. unfold relax_dgo_inject.
  destruct (_ || _); [intros ?; by simplify_eq|].
  simpl. intros ?; simplify_eq. simpl in *.
  intros v [[Hv|Hv%list_elem_of_singleton]%elem_of_app|Hv%list_elem_of_singleton]%elem_of_app.
  - by apply Hinv.
  - right. by subst v.
  - right. by subst v.
Qed.

Lemma relax_lc_slack_model_variables tmodel ig solver sm :
  relax_lc_slack_model BIGM_DG make_name tmodel ig solver = Ok sm ->
  forall v, v ∈ variables sm -> old_or_slack BIGM_DG tmodel v.
Proof.
  unfold relax_lc_slack_model, mbind, Result_bind.
  destruct (for_each _ _ _) as [[[[sm0 obj] pos] neg]|] eqn:Hloop; [|done].
  destruct (for_each _ _ sm0) as [sm1|] eqn:Hloop2; [|done].
  destruct (set_objective sm1 obj) as [sm2|] eqn:Hset; [|done].
  apply set_objective_Ok in Hset as [-> _].
  intros ?; simplify_eq. simpl.
  assert (forall v, v ∈ variables sm0 -> old_or_slack BIGM_DG tmodel v) as Hsm0.
  { revert Hloop.
    apply (for_each_inv
             (fun st => forall v, v ∈ variables st.1.1.1 -> old_or_slack BIGM_DG tmodel v)).
    { simpl. intros v Hv. by left. }
    intros [[[sa oa] pa] na] c [[[sb ob] pb] nb] _ Hinv. unfold relax_lc_add_slack.
    destruct (bool_decide _); [intros ?; by simplify_eq|].
    simpl. intros ?; simplify_eq. simpl in *.
    intros v [[Hv|Hv%list_elem_of_singleton]%elem_of_app|Hv%list_elem_of_singleton]%elem_of_app.
    - by apply Hinv.
    - right. by subst v.
    - right. by subst v. }
  revert Hloop2.
  apply (for_each_inv (fun st => forall v, v ∈ variables st -> old_or_slack BIGM_DG tmodel v));
    [done|].
  intros sa c sb _ Hinv. unfold relax_lc_rewrite, mbind, Result_bind.
  destruct (negb _); [intros ?; by simplify_eq|].
  destruct (for_each (relax_lc_inject _ _ _ _) _ _); [|done].
  intros ?; simplify_eq. done.
Qed.

Lemma slack_model_variables r tmodel ig solver sm :
  slack_model_of BIGM_DG make_name r tmodel ig solver = Ok sm ->
  forall v, v ∈ variables sm -> old_or_slack BIGM_DG tmodel v.
Proof.
  destruct r; [apply relax_dgo_slack_model_variables|apply relax_lc_slack_model_variables].
Qed.

Lemma slack_objective_snoc r ids i :
  slack_objective make_name r (ids ++ [i]) =
  Add (slack_objective make_name r ids)
      (Add (Sym (make_name (neg_slack_kind r) i)) (Sym (make_name (pos_slack_kind r) i))).
Proof. unfold slack_objective. by rewrite fold_left_app. Qed.

(** The state of an injection loop after some entities: the model has the
    slack pairs of the ids [ids] after the variables of [sm0], and the
    objective is their sum. *)
Lemma relax_dgo_inject_loop ig my_dgo cs sm0 sm obj :
  for_each (relax_dgo_inject BIGM_DG make_name ig my_dgo) cs (sm0, Num 0) = Ok (sm, obj) ->
  let ids :=
    c_id <$> filter (fun c => (c_id c ∉ ig) ∧ c_id c ∈ v_id <$> my_dgo) cs in
  variables sm = variables sm0 ++ concat (slack_pair BIGM_DG make_name ByReaction <$> ids) ∧
  obj = slack_objective make_name ByReaction ids ∧
  same_but_variables_and_constraints sm sm0.
Proof.
  intros Hloop. simpl. revert Hloop.
  apply (for_each_prefix_ind
           (fun pre st =>
              let ids :=
                c_id <$> filter (fun c => (c_id c ∉ ig) ∧ c_id c ∈ v_id <$> my_dgo) pre in
              variables st.1 =
                variables sm0 ++ concat (slack_pair BIGM_DG make_name ByReaction <$> ids) ∧
              st.2 = slack_objective make_name ByReaction ids ∧
              same_but_variables_and_constraints st.1 sm0)).
  { simpl. by rewrite app_nil_r. }
  intros pre c post [sm1 obj1] [sm2 obj2] _ (Hvars & Hobj & Hsame) Hstep. simpl in *.
  rewrite filter_app.
  unfold relax_dgo_inject, contains_id in Hstep.
  rewrite filter_cons, filter_nil.
  destruct (decide ((c_id c ∉ ig) ∧ c_id c ∈ v_id <$> my_dgo)) as [[Hig Hin]|Hskip].
  - rewrite bool_decide_eq_false_2, bool_decide_eq_true_2 in Hstep by done.
    rewrite !fmap_app, concat_app.
    change (c_id <$> [c]) with [c_id c]. rewrite slack_objective_snoc.
    simpl in Hstep. injection Hstep as <- <-. simpl. rewrite Hvars, Hobj.
    split_and!; [|done|done]. by rewrite <- !app_assoc.
  - assert (bool_decide (c_id c ∈ ig) || negb (bool_decide (c_id c ∈ v_id <$> my_dgo))
            = true) as Hguard.
    { apply not_and_l in Hskip as [Hig%dec_stable|Hin].
      - by rewrite bool_decide_eq_true_2.
      - rewrite (bool_decide_eq_false_2 _ Hin). apply orb_true_r. }
    rewrite Hguard in Hstep. simplify_eq. simpl. by rewrite !app_nil_r.
Qed.

Lemma relax_lc_add_slack_loop ig lcs sm0 sm obj pos neg :
  for_each (relax_lc_add_slack BIGM_DG make_name ig) lcs (sm0, Num 0, ∅, ∅)
    = Ok (sm, obj, pos, neg) ->
  let ids := v_id <$> filter (fun v => v_name v ∉ ig) lcs in
  variables sm =
    variables sm0 ++ concat (slack_pair BIGM_DG make_name ByConcentration <$> ids) ∧
  obj = slack_objective make_name ByConcentration ids ∧
  constraints sm = constraints sm0 ∧
  same_but_variables_and_constraints sm sm0.
Proof.
  intros Hloop. simpl. revert Hloop.
  apply (for_each_prefix_ind
           (fun pre st =>
              let ids := v_id <$> filter (fun v => v_name v ∉ ig) pre in
              variables st.1.1.1 =
                variables sm0 ++
                concat (slack_pair BIGM_DG make_name ByConcentration <$> ids) ∧
              st.1.1.2 = slack_objective make_name ByConcentration ids ∧
              constraints st.1.1.1 = constraints sm0 ∧
              same_but_variables_and_constraints st.1.1.1 sm0)).
  { simpl. by rewrite app_nil_r. }
  intros pre v post [[[sm1 obj1] pos1] neg1] [[[sm2 obj2] pos2] neg2] _
    (Hvars & Hobj & Hcons & Hsame) Hstep. simpl in *.
  rewrite filter_app.
  unfold relax_lc_add_slack in Hstep.
  rewrite filter_cons, filter_nil.
  destruct (decide (v_name v ∉ ig)) as [Hig|Hig%dec_stable].
  - rewrite bool_decide_eq_false_2 in Hstep by done.
    rewrite !fmap_app, concat_app.
    change (v_id <$> [v]) with [v_id v]. rewrite slack_objective_snoc.
    simpl in Hstep. injection Hstep as <- <- _ _. simpl. rewrite Hvars, Hobj.
    split_and!; [|done|done|done]. by rewrite <- !app_assoc.
  - rewrite bool_decide_eq_true_2 in Hstep by done.
    simplify_eq. simpl. by rewrite !app_nil_r.
Qed.

Lemma relax_lc_rewrite_loop cs pos neg my_neg_dg sm0 sm :
  for_each (relax_lc_rewrite my_neg_dg pos neg) cs sm0 = Ok sm ->
  variables sm = variables sm0 ∧ objective sm = objective sm0 ∧
  same_but_variables_and_constraints sm sm0.
Proof.
  apply (for_each_inv
           (fun st => variables st = variables sm0 ∧ objective st = objective sm0 ∧
                      same_but_variables_and_constraints st sm0)); [done|].
  intros sm1 c sm2 _ Hinv. unfold relax_lc_rewrite, mbind, Result_bind.
  destruct (negb _); [intros ?; by simplify_eq|].
  destruct (for_each (relax_lc_inject _ _ _ _) _ _); [|done].
  intros ?; simplify_eq. done.
Qed.

(** The shape of the slack model of either relaxer. *)
Lemma slack_model_shape r tmodel ig solver_name sm :
  slack_model_of BIGM_DG make_name r tmodel ig solver_name = Ok sm ->
  let ids := slack_pair_ids r tmodel ig in
  variables sm = variables tmodel ++ concat (slack_pair BIGM_DG make_name r <$> ids) ∧
  objective sm = slack_objective make_name r ids ∧
  direction sm = "min" ∧ solver sm = solver_name ∧
  reactions sm = reactions tmodel ∧ metabolites sm = metabolites tmodel ∧
  RT sm = RT tmodel.
Proof.
  destruct r; simpl.
  - unfold relax_dgo_slack_model, mbind, Result_bind.
    destruct (for_each _ _ _) as [[sm0 obj]|] eqn:Hloop; [|done].
    destruct (set_objective sm0 obj) as [sm1|] eqn:Hset; [|done].
    apply set_objective_Ok in Hset as [-> _].
    intros ?; simplify_eq. simpl.
    apply relax_dgo_inject_loop in Hloop as (Hvars & -> & Hr & Hm & Hrt & _ & Hs).
    by split_and!.
  - unfold relax_lc_slack_model, mbind, Result_bind.
    destruct (for_each _ _ _) as [[[[sm0 obj] pos] neg]|] eqn:Hloop; [|done].
    destruct (for_each _ _ sm0) as [sm1|] eqn:Hloop2; [|done].
    destruct (set_objective sm1 obj) as [sm2|] eqn:Hset; [|done].
    apply set_objective_Ok in Hset as [-> _].
    intros ?; simplify_eq. simpl.
    apply relax_lc_add_slack_loop in Hloop as (Hvars & -> & _ & Hr & Hm & Hrt & _ & Hs).
    apply relax_lc_rewrite_loop in Hloop2 as (Hvars2 & _ & Hr2 & Hm2 & Hrt2 & _ & Hs2).
    split_and!; [by rewrite Hvars2, Hvars|done|done|by rewrite Hs2, Hs
                |by rewrite Hr2, Hr|by rewrite Hm2, Hm|by rewrite Hrt2, Hrt].
Qed.

(** No slack model without a slack pair: the objective handed to
    [set_objective] is then the number [0] of lines 66 and 213. *)
Lemma relax_lc_no_slack_dict ig lcs st sm obj pos neg :
  filter (fun v => v_name v ∉ ig) lcs = [] ->
  for_each (relax_lc_add_slack BIGM_DG make_name ig) lcs st = Ok (sm, obj, pos, neg) ->
  neg = st.2.
Proof.
  revert st. induction lcs as [|v lcs IH]; intros [[[sm1 obj1] pos1] neg1]; simpl.
  - intros _ ?; by simplify_eq.
  - rewrite filter_cons. unfold relax_lc_add_slack at 1.
    destruct (decide (v_name v ∉ ig)) as [Hv|Hv%dec_stable]; [done|].
    rewrite bool_decide_eq_true_2 by done. apply IH.
Qed.

Lemma slack_model_no_pair r tmodel ig solver_name :
  slack_pair_ids r tmodel ig = [] ->
  slack_model_of BIGM_DG make_name r tmodel ig solver_name
    = Raise (TypeError "not a valid objective").
Proof.
  intros Hnone. destruct r; simpl in *.
  - unfold relax_dgo_slack_model, mbind, Result_bind.
    destruct (for_each_total
                (relax_dgo_inject BIGM_DG make_name ig
                   (get_variables_of_type (set_solver (deepcopy tmodel) solver_name)
                      DeltaGstd))
                (get_constraints_of_type (set_solver (deepcopy tmodel) solver_name)
                   NegativeDeltaG)
                (set_solver (deepcopy tmodel) solver_name, Num 0))
      as [[sm0 obj] Hloop].
    { intros [sm1 obj1] c. unfold relax_dgo_inject.
      destruct (_ || _); simpl; by eexists. }
    rewrite Hloop.
    apply relax_dgo_inject_loop in Hloop as (_ & -> & _).
    change (get_variables_of_type (set_solver (deepcopy tmodel) solver_name) DeltaGstd)
      with (get_variables_of_type tmodel DeltaGstd).
    change (get_constraints_of_type (set_solver (deepcopy tmodel) solver_name)
              NegativeDeltaG)
      with (get_constraints_of_type tmodel NegativeDeltaG).
    by rewrite Hnone.
  - unfold relax_lc_slack_model, mbind, Result_bind.
    apply fmap_nil_inv in Hnone.
    change (get_variables_of_type (set_solver (deepcopy tmodel) solver_name)
              LogConcentration)
      with (get_variables_of_type tmodel LogConcentration).
    destruct (for_each_total
                (relax_lc_add_slack BIGM_DG make_name ig)
                (get_variables_of_type tmodel LogConcentration)
                (set_solver (deepcopy tmodel) solver_name, Num 0,
                 (∅ : gmap string GenericVariable), (∅ : gmap string GenericVariable)))
      as [[[[sm0 obj] pos] neg] Hloop].
    { intros [[[sm1 obj1] pos1] neg1] v. unfold relax_lc_add_slack.
      destruct (bool_decide _); simpl; by eexists. }
    rewrite Hloop.
    pose proof (relax_lc_no_slack_dict _ _ _ _ _ _ _ Hnone Hloop) as Hneg.
    simpl in Hneg. subst neg.
    apply relax_lc_add_slack_loop in Hloop as (_ & -> & _). rewrite Hnone. simpl.
    destruct (for_each_total
                (relax_lc_rewrite
                   (get_constraints_of_type (set_solver (deepcopy tmodel) solver_name)
                      NegativeDeltaG) pos ∅)
                (get_constraints_of_type (set_solver (deepcopy tmodel) solver_name)
                   NegativeDeltaG) sm0)
      as [sm1 Hloop2].
    { intros sm1 c. unfold relax_lc_rewrite.
      destruct (negb _); [by eexists|].
      unfold mbind, Result_bind.
      destruct (for_each_total (relax_lc_inject sm1 c pos ∅)
                  (expr_variables (c_expr c))
                  (subs (subs_dict_of sm1 c) (c_expr c))) as [e ->]; [|by eexists].
      intros e x. unfold relax_lc_inject. rewrite lookup_empty.
      rewrite bool_decide_eq_false_2 by (by intros [? ?]). simpl. by eexists. }
    by rewrite Hloop2.
Qed.

Lemma slack_model_some_pair r tmodel ig solver_name sm :
  slack_model_of BIGM_DG make_name r tmodel ig solver_name = Ok sm ->
  slack_pair_ids r tmodel ig ≠ [].
Proof.
  intros Hsm Hnone. by rewrite (slack_model_no_pair _ _ _ _ Hnone) in Hsm.
Qed.

Lemma probe_run tmodel log0 :
  probe solve solver_status tmodel log0 =
  match solve tmodel with
  | Solved _ => (log0, Ok tt)
  | Failed se =>
      (log0 ++ [LogError se; LogWarning ("Solver status: " +:+ solver_status tmodel)],
       Ok tt)
  end.
Proof.
  unfold probe, optimize, try_except_SolverError.
  destruct (solve tmodel); [done|].
  unfold mbind, M_bind, emit. by rewrite <- app_assoc.
Qed.

(** The read-back pass of either relaxer is the common loop over the ids. *)
Lemma read_back_widen r ig rm0 sm sol :
  read_back EPSILON r ig rm0 sm sol =
  for_each
    (widen EPSILON (target_kind r) ig
       (get_variables_of_type sm (neg_slack_kind r))
       (get_variables_of_type sm (pos_slack_kind r))
       (get_solution_value_for_variables sol (get_variables_of_type sm (neg_slack_kind r)))
       (get_solution_value_for_variables sol (get_variables_of_type sm (pos_slack_kind r))))
    (entity_ids r rm0) (rm0, []).
Proof.
  destruct r; simpl.
  - unfold relax_dgo_read_back. by rewrite <- for_each_fmap.
  - unfold relax_lc_read_back. by rewrite <- for_each_fmap.
Qed.

(** What a run that returns went through. *)
Lemma relax_Ok r tmodel ig solver log0 log rm sm tbl :
  relax BIGM_DG EPSILON make_name solve solver_status frame_str r tmodel ig solver log0
    = (log, Ok (rm, sm, tbl)) ->
  exists sol sol' ch,
    slack_model_of BIGM_DG make_name r tmodel ig solver = Ok sm ∧
    solve sm = Solved sol ∧
    read_back EPSILON r ig (set_solver (deepcopy tmodel) solver) sm sol = Ok (rm, ch) ∧
    solve rm = Solved sol' ∧
    df_rows tbl = ch ∧ df_index tbl = ch.*1 ∧
    df_columns tbl = StrLabel <$> report_columns.
Proof.
  intros Hrun.
  assert (exists log1,
            (slack_model ← lift (slack_model_of BIGM_DG make_name r tmodel ig solver);
             relaxation ← lift (optimize solve slack_model);
             '(relaxed_model, changes) ←
               lift (read_back EPSILON r ig (set_solver (deepcopy tmodel) solver)
                       slack_model relaxation);
             _ ← lift (optimize solve relaxed_model);
             relax_table ← format_relaxation frame_str changes;
             mret (relaxed_model, slack_model, relax_table)) log1
            = (log, Ok (rm, sm, tbl))) as [log1 Hrest].
  { destruct r; simpl in Hrun; unfold relax_dgo, relax_lc in Hrun;
      unfold mbind at 1, M_bind at 1 in Hrun; rewrite probe_run in Hrun;
      destruct (solve tmodel); eexists; exact Hrun. }
  clear Hrun. revert Hrest.
  unfold mbind, M_bind, lift, optimize.
  destruct (slack_model_of _ _ _ _ _ _) as [sm'|] eqn:Hsm; [|done].
  destruct (solve sm') as [sol|] eqn:Hsol; [|done].
  destruct (read_back _ _ _ _ _ _) as [[rm' ch]|] eqn:Hrb; [|done].
  destruct (solve rm') as [sol'|] eqn:Hsol'; [|done].
  destruct (format_relaxation frame_str ch log1) as [log2 [tbl'|]] eqn:Hfmt; [|done].
  unfold mret, M_ret. intros ?; simplify_eq.
  apply format_relaxation_Ok in Hfmt as (? & ? & ?). by exists sol, sol', ch.
Qed.

End Runs.

(** ** The report of a run *)

Section Claims.

Variable BIGM_DG : float.
Variable EPSILON : float.
Variable make_name : VarKind -> string -> string.
Variable solve : ThermoModel -> Solve.
Variable solver_status : ThermoModel -> string.
Variable frame_str : DataFrame -> string.

Lemma slack_reading_values r sm sol i delta_lb delta_ub :
  slack_reading
    (get_variables_of_type sm (neg_slack_kind r))
    (get_variables_of_type sm (pos_slack_kind r))
    (get_solution_value_for_variables sol (get_variables_of_type sm (neg_slack_kind r)))
    (get_solution_value_for_variables sol (get_variables_of_type sm (pos_slack_kind r)))
    i delta_lb delta_ub ->
  slack_values r sm sol i delta_lb delta_ub.
Proof.
  intros (nvar & pvar & Hn & Hdl & Hp & Hdu).
  exists nvar, pvar. unfold var_of. split_and!; try done.
  - by apply map_lookup_filter_Some in Hdl as [? _].
  - by apply map_lookup_filter_Some in Hdu as [? _].
Qed.


(** Everything the claims below need of a run that returns. *)
Lemma relax_report r tmodel ig solver log0 log rm sm tbl :
  relax BIGM_DG EPSILON make_name solve solver_status frame_str r tmodel ig solver log0
    = (log, Ok (rm, sm, tbl)) ->
  exists sol,
    solve sm = Solved sol ∧
    (forall v, v ∈ variables sm -> old_or_slack BIGM_DG tmodel v) ∧
    same_but_variables rm (set_solver tmodel solver) ∧
    (forall k' i', k' ≠ target_kind r ∨ i' ∉ df_index tbl ->
       var_of rm k' i' = var_of tmodel k' i') ∧
    df_index tbl `sublist_of` entity_ids r tmodel ∧
    NoDup (df_index tbl) ∧
    (forall i row, (i, row) ∈ df_rows tbl ->
       (i ∉ ig) ∧
       exists v delta_lb delta_ub,
         slack_values r sm sol i delta_lb delta_ub ∧
         ((0 <? delta_lb)%float || (0 <? delta_ub)%float) = true ∧
         row = report_row EPSILON v delta_lb delta_ub ∧
         (NoDup (entity_ids r tmodel) ->
          var_of tmodel (target_kind r) i = Ok v ∧
          var_of rm (target_kind r) i = Ok (widened EPSILON v delta_lb delta_ub))).
Proof.
  intros (sol & sol' & ch & Hsm & Hsol & Hrb & _ & Hrows & Hindex & _)%relax_Ok.
  rewrite read_back_widen in Hrb.
  apply widen_loop in Hrb as (Hsame & Hframe & Hsub & Hnodup & Hch).
  simpl in *. rewrite Hrows, Hindex.
  exists sol. refine (conj _ (conj _ (conj _ (conj _ (conj _ (conj _ _)))))); try done.
  - by eapply slack_model_variables.
  - intros i row Hin. destruct (Hch i row Hin) as [Hig (v & dl & du & Hread & Hpos & -> & Hv)].
    split; [done|]. exists v, dl, du. split_and!; try done.
    by apply slack_reading_values.
Qed.

Lemma slack_values_nonneg r tmodel sm sol i delta_lb delta_ub :
  no_slack_variables tmodel = true ->
  (forall v, v ∈ variables sm -> old_or_slack BIGM_DG tmodel v) ->
  respects_bounds sm sol = true ->
  slack_values r sm sol i delta_lb delta_ub ->
  (0 <=? delta_lb)%float = true ∧ (0 <=? delta_ub)%float = true.
Proof.
  intros Hnone Hvars Hfeas (nvar & pvar & Hn & Hdl & Hp & Hdu).
  assert (forall v x, v ∈ variables sm -> is_slack_kind (v_kind v) = true ->
                      raw sol !! v_name v = Some x -> (0 <=? x)%float = true) as Hge.
  { intros v x Hv Hkind Hx.
    destruct (Hvars v Hv) as [Hold|(_ & Hlb & _)].
    - unfold no_slack_variables in Hnone. rewrite forallb_forall in Hnone.
      apply list_elem_of_In, Hnone in Hold. by rewrite Hkind in Hold.
    - unfold respects_bounds in Hfeas. rewrite forallb_forall in Hfeas.
      apply list_elem_of_In, Hfeas in Hv. rewrite Hx, Hlb in Hv.
      by apply andb_true_iff in Hv as [? _]. }
  apply var_of_Ok in Hn as (Hnin & Hnk & _), Hp as (Hpin & Hpk & _).
  split.
  - apply (Hge nvar); [done| |done]. rewrite Hnk. by destruct r.
  - apply (Hge pvar); [done| |done]. rewrite Hpk. by destruct r.
Qed.

(** C1: for every row of the report of either relaxer, the two deltas read
    from the slack solution are non-negative (the solution respecting the
    bounds of the slack model), and the variable of the entity in the relaxed
    model has exactly the lower bound [old - (negative slack + EPSILON)] and
    the upper bound [old + (positive slack + EPSILON)], [old] being the bound
    in the input model. *)
Theorem C1_applied_deltas r tmodel ig solver log0 log rm sm tbl sol i row :
  NoDup (entity_ids r tmodel) ->
  no_slack_variables tmodel = true ->
  relax BIGM_DG EPSILON make_name solve solver_status frame_str r tmodel ig solver log0
    = (log, Ok (rm, sm, tbl)) ->
  solve sm = Solved sol ->
  respects_bounds sm sol = true ->
  (i, row) ∈ df_rows tbl ->
  exists v v' delta_lb delta_ub,
    slack_values r sm sol i delta_lb delta_ub ∧
    (0 <=? delta_lb)%float = true ∧ (0 <=? delta_ub)%float = true ∧
    var_of tmodel (target_kind r) i = Ok v ∧
    var_of rm (target_kind r) i = Ok v' ∧
    v_lb v' = (v_lb v - (delta_lb + EPSILON))%float ∧
    v_ub v' = (v_ub v + (delta_ub + EPSILON))%float ∧
    row = [v_lb v; v_ub v; delta_lb; delta_ub; v_lb v'; v_ub v'].
Proof.
  intros Hnodup Hnone Hrun Hsol Hfeas Hrow.
  apply relax_report in Hrun as (sol0 & Hsol0 & Hvars & _ & _ & _ & _ & Hrows).
  assert (sol0 = sol) as -> by congruence.
  destruct (Hrows i row Hrow) as [_ (v & dl & du & Hvals & _ & -> & Hv)].
  destruct (Hv Hnodup) as [Hv0 Hv1].
  destruct (slack_values_nonneg r tmodel sm sol i dl du) as [Hdl Hdu]; try done.
  by exists v, (widened EPSILON v dl du), dl, du.
Qed.

(** C5: an entity of the ignore set has no row in the report of either
    relaxer, and its variables in the relaxed model are those of the input
    model (same bounds). *)
Theorem C5_ignored_untouched r tmodel ig solver log0 log rm sm tbl i :
  relax BIGM_DG EPSILON make_name solve solver_status frame_str r tmodel ig solver log0
    = (log, Ok (rm, sm, tbl)) ->
  i ∈ ig ->
  (i ∉ df_index tbl) ∧ forall k, var_of rm k i = var_of tmodel k i.
Proof.
  intros Hrun Hig.
  destruct (relax_Ok _ _ _ _ _ _ _ _ _ _ _ _ _ _ _ Hrun)
    as (_ & _ & ch & _ & _ & _ & _ & Hch & Hindex & _).
  apply relax_report in Hrun as (sol & _ & _ & _ & Hframe & _ & _ & Hrows).
  assert (i ∉ df_index tbl) as Hnot.
  { rewrite Hindex. intros ([i' row] & -> & Hin)%list_elem_of_fmap.
    rewrite <- Hch in Hin. by apply Hrows in Hin as [? _]. }
  split; [done|]. intros k. apply Hframe. by right.
Qed.

(** C7 (as amended): in every row of the report of either relaxer,
    [lb_out = lb_in - (lb_change + EPSILON)] and
    [ub_out = ub_in + (ub_change + EPSILON)]. *)
Theorem C7_row_consistent_with_margin r tmodel ig solver log0 log rm sm tbl i row :
  relax BIGM_DG EPSILON make_name solve solver_status frame_str r tmodel ig solver log0
    = (log, Ok (rm, sm, tbl)) ->
  (i, row) ∈ df_rows tbl ->
  exists lb_in ub_in lb_change ub_change lb_out ub_out,
    row = [lb_in; ub_in; lb_change; ub_change; lb_out; ub_out] ∧
    lb_out = (lb_in - (lb_change + EPSILON))%float ∧
    ub_out = (ub_in + (ub_change + EPSILON))%float.
Proof.
  intros Hrun Hrow.
  apply relax_report in Hrun as (sol & _ & _ & _ & _ & _ & _ & Hrows).
  destruct (Hrows i row Hrow) as [_ (v & dl & du & _ & _ & -> & _)].
  by eexists _, _, _, _, _, _.
Qed.

(** C10: the rows of the report of either relaxer come in the order of the
    entity list of the relaxed model: the index of the table is a subsequence
    of the ids of [relaxed_model.reactions] (of [relaxed_model.metabolites]
    for [relax_lc]), and no id comes twice. *)
Theorem C10_rows_in_entity_order r tmodel ig solver log0 log rm sm tbl :
  relax BIGM_DG EPSILON make_name solve solver_status frame_str r tmodel ig solver log0
    = (log, Ok (rm, sm, tbl)) ->
  df_index tbl `sublist_of` entity_ids r rm ∧ NoDup (df_index tbl).
Proof.
  intros (sol & _ & _ & Hsame & _ & Hsub & Hnodup & _)%relax_report.
  split; [|done].
  destruct Hsame as (Hr & Hm & _).
  by destruct r; simpl in *; [rewrite Hr|rewrite Hm].
Qed.




(** C6: when the probe solve of the input model fails, the failure and the
    solver status are logged and the run goes on with what follows the probe;
    a failure of the slack minimization, or of the final solve of the relaxed
    model, is raised to the caller. *)
Theorem C6_solver_failures r tmodel ig solver log0 :
  (forall se, solve tmodel = Failed se ->
     relax BIGM_DG EPSILON make_name solve solver_status frame_str r tmodel ig solver log0 =
     relax_after_probe BIGM_DG EPSILON make_name solve frame_str r tmodel ig solver
       (log0 ++ [LogError se;
                 LogWarning ("Solver status: " +:+ solver_status tmodel)])) ∧
  (forall sm msg,
     slack_model_of BIGM_DG make_name r tmodel ig solver = Ok sm ->
     solve sm = Failed msg ->
     (relax BIGM_DG EPSILON make_name solve solver_status frame_str r tmodel ig solver
        log0).2 = Raise (SolverError msg)) ∧
  (forall sm sol rm ch msg,
     slack_model_of BIGM_DG make_name r tmodel ig solver = Ok sm ->
     solve sm = Solved sol ->
     read_back EPSILON r ig (set_solver (deepcopy tmodel) solver) sm sol = Ok (rm, ch) ->
     solve rm = Failed msg ->
     (relax BIGM_DG EPSILON make_name solve solver_status frame_str r tmodel ig solver
        log0).2 = Raise (SolverError msg)).
Proof.
  split_and!.
  - intros se Hse. destruct r; simpl; unfold relax_dgo, relax_lc;
      unfold mbind at 1, M_bind at 1; by rewrite probe_run, Hse.
  - intros sm msg Hsm Hfail.
    destruct r; simpl in *; unfold relax_dgo, relax_lc;
      unfold mbind at 1, M_bind at 1; rewrite probe_run;
      unfold relax_dgo_after_probe, relax_lc_after_probe, mbind, M_bind, lift, optimize;
      destruct (solve tmodel); by rewrite Hsm, Hfail.
  - intros sm sol rm ch msg Hsm Hsol Hrb Hfail.
    destruct r; simpl in *; unfold relax_dgo, relax_lc;
      unfold mbind at 1, M_bind at 1; rewrite probe_run;
      unfold relax_dgo_after_probe, relax_lc_after_probe, mbind, M_bind, lift, optimize;
      destruct (solve tmodel); by rewrite Hsm, Hsol, Hrb, Hfail.
Qed.


End Claims.

(** ** The rewriting of the constraints in [relax_lc] *)

Lemma contains_id_elem {A} (id_of : A -> string) (l : list A) x :
  x ∈ l -> contains_id id_of l (id_of x) = true.
Proof.
  intros Hx. apply bool_decide_eq_true. by apply list_elem_of_fmap_2.
Qed.

(** C9: in the rewriting loop of [relax_lc] the guard
    [this_neg_dg.id not in my_neg_dg] is false at every turn, [my_neg_dg]
    being the list gone through; the loop is the loop of the unguarded body,
    so every constraint of the list is rewritten. *)
Theorem C9_guard_never_skips (pos_slack neg_slack : gmap string GenericVariable)
    (slack_model sm0 : ThermoModel) :
  let my_neg_dg := get_constraints_of_type slack_model NegativeDeltaG in
  Forall (fun this_neg_dg =>
            negb (contains_id c_id my_neg_dg (c_id this_neg_dg)) = false) my_neg_dg ∧
  for_each (relax_lc_rewrite my_neg_dg pos_slack neg_slack) my_neg_dg sm0 =
  for_each (relax_lc_rewrite_unguarded pos_slack neg_slack) my_neg_dg sm0.
Proof.
  intros my_neg_dg. split.
  - apply Forall_forall. intros c Hc. by rewrite contains_id_elem.
  - apply for_each_ext. intros s c Hc.
    unfold relax_lc_rewrite. by rewrite contains_id_elem.
Qed.

Lemma filter_none {A} (P : A -> Prop) `{forall x, Decision (P x)} (l : list A) :
  (forall x, x ∈ l -> ¬ P x) -> filter P l = [].
Proof.
  induction l as [|x l IH]; intros Hnone; [done|].
  rewrite filter_cons_False by (apply Hnone, list_elem_of_here).
  apply IH. intros y Hy. by apply Hnone, list_elem_of_further.
Qed.

Lemma relax_lc_inject_terms sm c pos_slack neg_slack vars e0 e' :
  for_each (relax_lc_inject sm c pos_slack neg_slack) vars e0 = Ok e' ->
  exists terms,
    addends e' = addends e0 ++ terms ∧
    Forall2
      (fun this_var t =>
         exists pos_var neg_var the_met stoich,
           pos_slack !! this_var = Some pos_var ∧
           neg_slack !! this_var = Some neg_var ∧
           get_by_id m_id (metabolites sm) (v_id pos_var) = Ok the_met ∧
           r_metabolites (c_reaction c) !! m_id the_met = Some stoich ∧
           t = Mul (Num (RT sm * stoich)%float)
                 (Sub (Sym (v_name pos_var)) (Sym (v_name neg_var))))
      (filter (fun x => is_Some (neg_slack !! x)) vars) terms.
Proof.
  revert e0. induction vars as [|x vars IH]; intros e0; simpl.
  - intros ?; simplify_eq. exists []. split; [by rewrite app_nil_r|constructor].
  - unfold relax_lc_inject at 1. rewrite filter_cons.
    destruct (decide (is_Some (neg_slack !! x))) as [Hx|Hx].
    + rewrite bool_decide_eq_true_2 by done. simpl.
      unfold mbind, Result_bind, getitem.
      destruct (pos_slack !! x) as [p|] eqn:Hp; [|done].
      destruct (get_by_id m_id _ _) as [met|] eqn:Hmet; [|done].
      destruct (r_metabolites _ !! _) as [stoich|] eqn:Hst; [|done].
      destruct (neg_slack !! x) as [n|] eqn:Hn; [|done].
      intros (terms & Hadd & Hterms)%IH.
      exists (Mul (Num (RT sm * stoich)%float) (Sub (Sym (v_name p)) (Sym (v_name n)))
                :: terms). split.
      * rewrite Hadd. simpl. by rewrite <- app_assoc.
      * constructor; [|done]. by exists p, n, met, stoich.
    + rewrite bool_decide_eq_false_2 by done. simpl. apply IH.
Qed.

(** C2: rewriting a constraint in [relax_lc] leaves, under the id of its
    reaction, a constraint with the bounds [0, 0] whose expression is the
    substituted expression plus, for each variable of the original constraint
    that has a slack pair, and in the order of these variables, the term
    [(RT * stoich) * (pos - neg)]: [RT] is that of the slack model, [stoich]
    the coefficient, in the reaction of the constraint, of the metabolite
    that owns the pair, [pos] and [neg] the two slack variables of the pair.
    The other variables add nothing. *)
Theorem C2_slack_terms_of_rewritten_constraint (model : ThermoModel)
    (pos_slack neg_slack : gmap string GenericVariable) sm c sm' :
  let my_neg_dg := get_constraints_of_type model NegativeDeltaG in
  c ∈ my_neg_dg ->
  relax_lc_rewrite my_neg_dg pos_slack neg_slack sm c = Ok sm' ->
  exists c' terms,
    cons_of sm' NegativeDeltaG (c_id c) = Ok c' ∧
    c_reaction c' = c_reaction c ∧ c_lb c' = 0%float ∧ c_ub c' = 0%float ∧
    addends (c_expr c') = addends (subs (subs_dict_of sm c) (c_expr c)) ++ terms ∧
    Forall2
      (fun this_var t =>
         exists pos_var neg_var the_met stoich,
           pos_slack !! this_var = Some pos_var ∧
           neg_slack !! this_var = Some neg_var ∧
           get_by_id m_id (metabolites sm) (v_id pos_var) = Ok the_met ∧
           r_metabolites (c_reaction c) !! m_id the_met = Some stoich ∧
           t = Mul (Num (RT sm * stoich)%float)
                 (Sub (Sym (v_name pos_var)) (Sym (v_name neg_var))))
      (filter (fun x => is_Some (neg_slack !! x)) (expr_variables (c_expr c))) terms.
Proof.
  intros my_neg_dg Hc.
  assert (c_kind c = NegativeDeltaG) as Hkind.
  { by apply list_elem_of_filter in Hc as [? _]. }
  unfold relax_lc_rewrite.
  rewrite contains_id_elem by done. simpl. unfold mbind, Result_bind.
  destruct (for_each _ _ _) as [e'|] eqn:Hloop; [|done].
  intros ?; simplify_eq.
  apply relax_lc_inject_terms in Hloop as (terms & Hadd & Hterms).
  exists {| c_kind := NegativeDeltaG; c_reaction := c_reaction c; c_expr := e';
            c_lb := 0; c_ub := 0 |}, terms.
  split_and!; try done.
  unfold cons_of, get_by_id, get_constraints_of_type, add_constraint, remove_constraint.
  simpl. rewrite !filter_app, !list_filter_filter.
  rewrite filter_none.
  - simpl. by rewrite filter_cons_True.
  - intros c0 _ [[Hid Hk] Hnot]. apply Hnot. by rewrite Hkind.
Qed.

(** * Concrete runs on the two-reaction model *)

Lemma C1_applied_deltas_witness :
  (exists v v' delta_lb delta_ub,
     slack_values ByReaction (Example.slack_of (Example.run Example.solve ByReaction []))
       Example.slack_solution "R1" delta_lb delta_ub ∧
     (0 <=? delta_lb)%float = true ∧ (0 <=? delta_ub)%float = true ∧
     var_of Example.tmodel DeltaGstd "R1" = Ok v ∧
     var_of (Example.relaxed_of (Example.run Example.solve ByReaction [])) DeltaGstd "R1"
       = Ok v' ∧
     v_lb v' = (v_lb v - (delta_lb + Example.EPSILON))%float ∧
     v_ub v' = (v_ub v + (delta_ub + Example.EPSILON))%float ∧
     report_row Example.EPSILON (Example.var DeltaGstd "R1" (-50) 50) 1.5 0
       = [v_lb v; v_ub v; delta_lb; delta_ub; v_lb v'; v_ub v']) ∧
  (exists v v' delta_lb delta_ub,
     slack_values ByConcentration
       (Example.slack_of (Example.run Example.solve ByConcentration []))
       Example.slack_solution "M2" delta_lb delta_ub ∧
     (0 <=? delta_lb)%float = true ∧ (0 <=? delta_ub)%float = true ∧
     var_of Example.tmodel LogConcentration "M2" = Ok v ∧
     var_of (Example.relaxed_of (Example.run Example.solve ByConcentration []))
       LogConcentration "M2" = Ok v' ∧
     v_lb v' = (v_lb v - (delta_lb + Example.EPSILON))%float ∧
     v_ub v' = (v_ub v + (delta_ub + Example.EPSILON))%float ∧
     report_row Example.EPSILON (Example.var LogConcentration "M2" (-10) (-2)) 0 0.25
       = [v_lb v; v_ub v; delta_lb; delta_ub; v_lb v'; v_ub v']).
Proof.
  split.
  - apply (C1_applied_deltas Example.BIGM_DG Example.EPSILON Example.make_name
             Example.solve Example.solver_status Example.frame_str
             ByReaction Example.tmodel [] "optlang-glpk" []
             (Example.run Example.solve ByReaction []).1 _ _
             (Example.table_of (Example.run Example.solve ByReaction []))).
    + apply (bool_decide_unpack _). vm_compute. exact I.
    + vm_compute. reflexivity.
    + vm_compute. reflexivity.
    + vm_compute. reflexivity.
    + vm_compute. reflexivity.
    + vm_compute. apply list_elem_of_here.
  - apply (C1_applied_deltas Example.BIGM_DG Example.EPSILON Example.make_name
             Example.solve Example.solver_status Example.frame_str
             ByConcentration Example.tmodel [] "optlang-glpk" []
             (Example.run Example.solve ByConcentration []).1 _ _
             (Example.table_of (Example.run Example.solve ByConcentration []))).
    + apply (bool_decide_unpack _). vm_compute. exact I.
    + vm_compute. reflexivity.
    + vm_compute. reflexivity.
    + vm_compute. reflexivity.
    + vm_compute. reflexivity.
    + vm_compute. apply list_elem_of_further, list_elem_of_here.
Defined.

Lemma C5_ignored_untouched_witness :
  ("M1" ∉ df_index (Example.table_of (Example.run Example.solve ByConcentration ["R1"; "M1"]))) ∧
  forall k,
    var_of (Example.relaxed_of (Example.run Example.solve ByConcentration ["R1"; "M1"])) k "M1"
    = var_of Example.tmodel k "M1".
Proof.
  apply (C5_ignored_untouched Example.BIGM_DG Example.EPSILON Example.make_name
           Example.solve Example.solver_status Example.frame_str
           ByConcentration Example.tmodel ["R1"; "M1"] "optlang-glpk" []
           (Example.run Example.solve ByConcentration ["R1"; "M1"]).1
           (Example.relaxed_of (Example.run Example.solve ByConcentration ["R1"; "M1"]))
           (Example.slack_of (Example.run Example.solve ByConcentration ["R1"; "M1"]))
           (Example.table_of (Example.run Example.solve ByConcentration ["R1"; "M1"])) "M1").
  - vm_compute. reflexivity.
  - apply list_elem_of_further, list_elem_of_here.
Defined.

(** The run of [relax_dgo] on the example returns one row, for R1, whose
    [lb_out] is not [lb_in - lb_change]: the margin EPSILON is in it too. *)
Lemma C7_counterexample :
  exists lb_in ub_in lb_change ub_change lb_out ub_out,
    df_rows (Example.table_of (Example.run Example.solve ByReaction []))
      = [("R1", [lb_in; ub_in; lb_change; ub_change; lb_out; ub_out])] ∧
    (lb_out =? lb_in - lb_change)%float = false ∧
    (ub_out =? ub_in + ub_change)%float = false.
Proof.
  eexists _, _, _, _, _, _. split; [vm_compute; reflexivity|].
  split; vm_compute; reflexivity.
Qed.

Lemma C7_row_consistent_with_margin_witness :
  exists lb_in ub_in lb_change ub_change lb_out ub_out,
    report_row Example.EPSILON (Example.var DeltaGstd "R1" (-50) 50) 1.5 0
      = [lb_in; ub_in; lb_change; ub_change; lb_out; ub_out] ∧
    lb_out = (lb_in - (lb_change + Example.EPSILON))%float ∧
    ub_out = (ub_in + (ub_change + Example.EPSILON))%float.
Proof.
  apply (C7_row_consistent_with_margin Example.BIGM_DG Example.EPSILON Example.make_name
           Example.solve Example.solver_status Example.frame_str
           ByReaction Example.tmodel [] "optlang-glpk" []
           (Example.run Example.solve ByReaction []).1
           (Example.relaxed_of (Example.run Example.solve ByReaction []))
           (Example.slack_of (Example.run Example.solve ByReaction []))
           (Example.table_of (Example.run Example.solve ByReaction [])) "R1").
  - vm_compute. reflexivity.
  - vm_compute. apply list_elem_of_here.
Defined.

Lemma C10_rows_in_entity_order_witness :
  df_index (Example.table_of (Example.run Example.solve ByConcentration []))
    `sublist_of`
    entity_ids ByConcentration (Example.relaxed_of (Example.run Example.solve ByConcentration []))
  ∧ NoDup (df_index (Example.table_of (Example.run Example.solve ByConcentration []))).
Proof.
  apply (C10_rows_in_entity_order Example.BIGM_DG Example.EPSILON Example.make_name
           Example.solve Example.solver_status Example.frame_str
           ByConcentration Example.tmodel [] "optlang-glpk" []
           (Example.run Example.solve ByConcentration []).1 _
           (Example.slack_of (Example.run Example.solve ByConcentration []))).
  vm_compute. reflexivity.
Defined.

(** The rows of that run are those of M1 and M2, in the order of the
    metabolites of the model. *)
Lemma relax_lc_example_index :
  df_index (Example.table_of (Example.run Example.solve ByConcentration [])) = ["M1"; "M2"].
Proof. vm_compute. reflexivity. Qed.

Lemma C6_solver_failures_witness :
  Example.run Example.solve ByReaction [] =
    relax_after_probe Example.BIGM_DG Example.EPSILON Example.make_name Example.solve
      Example.frame_str ByReaction Example.tmodel [] "optlang-glpk"
      [LogError "infeasible"; LogWarning "Solver status: infeasible"]
  ∧ (Example.run Example.solve_failing_on_slack ByReaction []).2
      = Raise (SolverError "no slack solution")
  ∧ (Example.run Example.solve_only_slack ByConcentration []).2
      = Raise (SolverError "infeasible").
Proof.
  split_and!.
  - apply (proj1 (C6_solver_failures Example.BIGM_DG Example.EPSILON Example.make_name
                    Example.solve Example.solver_status Example.frame_str
                    ByReaction Example.tmodel [] "optlang-glpk" [])).
    vm_compute. reflexivity.
  - apply (proj1 (proj2 (C6_solver_failures Example.BIGM_DG Example.EPSILON
                           Example.make_name Example.solve_failing_on_slack
                           Example.solver_status Example.frame_str
                           ByReaction Example.tmodel [] "optlang-glpk" []))
             (Example.slack_of (Example.run Example.solve ByReaction []))).
    + vm_compute. reflexivity.
    + vm_compute. reflexivity.
  - apply (proj2 (proj2 (C6_solver_failures Example.BIGM_DG Example.EPSILON
                           Example.make_name Example.solve_only_slack
                           Example.solver_status Example.frame_str
                           ByConcentration Example.tmodel [] "optlang-glpk" []))
             (Example.slack_of (Example.run Example.solve ByConcentration []))
             Example.slack_solution
             (Example.relaxed_of (Example.run Example.solve ByConcentration []))
             (df_rows (Example.table_of (Example.run Example.solve ByConcentration [])))).
    + vm_compute. reflexivity.
    + vm_compute. reflexivity.
    + vm_compute. reflexivity.
    + vm_compute. reflexivity.
Defined.

Lemma C2_slack_terms_witness :
  exists c' terms,
    cons_of Example.lc_rewritten_R2 NegativeDeltaG "R2" = Ok c' ∧
    c_reaction c' = Example.R2 ∧ c_lb c' = 0%float ∧ c_ub c' = 0%float ∧
    addends (c_expr c') =
      addends (subs (subs_dict_of Example.lc_slack_model (Example.G Example.R2 (-2) 1))
                 (c_expr (Example.G Example.R2 (-2) 1))) ++ terms ∧
    Forall2
      (fun this_var t =>
         exists pos_var neg_var the_met stoich,
           Example.lc_pos_slack !! this_var = Some pos_var ∧
           Example.lc_neg_slack !! this_var = Some neg_var ∧
           get_by_id m_id (metabolites Example.lc_slack_model) (v_id pos_var) = Ok the_met ∧
           r_metabolites Example.R2 !! m_id the_met = Some stoich ∧
           t = Mul (Num (RT Example.lc_slack_model * stoich)%float)
                 (Sub (Sym (v_name pos_var)) (Sym (v_name neg_var))))
      (filter (fun x => is_Some (Example.lc_neg_slack !! x))
         (expr_variables (c_expr (Example.G Example.R2 (-2) 1))))
      terms.
Proof.
  apply (C2_slack_terms_of_rewritten_constraint Example.lc_slack_model
           Example.lc_pos_slack Example.lc_neg_slack Example.lc_slack_model
           (Example.G Example.R2 (-2) 1) Example.lc_rewritten_R2).
  - vm_compute. apply list_elem_of_further, list_elem_of_here.
  - vm_compute. reflexivity.
Defined.

(** The scenario of the specification: M1 has the coefficient -2 in R2, and
    its slack pair comes into the constraint of R2 with the factor
    [RT * (-2)]. *)
Lemma relax_lc_example_R2_terms :
  c_expr <$> option_list
    (match cons_of Example.lc_rewritten_R2 NegativeDeltaG "R2" with
     | Ok c => Some c
     | Raise _ => None
     end)
  = [Add
       (Add (Example.neg_dg_expr "R2" (-2) 1)
          (Mul (Num (Example.RT_value * (-2))%float)
             (Sub (Sym "PosSlackLC_M1") (Sym "NegSlackLC_M1"))))
       (Mul (Num (Example.RT_value * 1)%float)
          (Sub (Sym "PosSlackLC_M2") (Sym "NegSlackLC_M2")))].
Proof. vm_compute. reflexivity. Qed.

(** C3: on a model whose slack minimization gives zero for every slack, the
    read-back pass of either relaxer leaves the bounds alone and the report
    empty, and the relaxer then fails with [ValueError] on the column labels
    of the empty table instead of returning. *)
Theorem C3_zero_slacks_raise :
  let solve := Example.solver_giving Example.zero_solution in
  let rm0 := set_solver (deepcopy Example.tmodel) "optlang-glpk" in
  (forall r,
     match slack_model_of Example.BIGM_DG Example.make_name r Example.tmodel []
             "optlang-glpk" with
     | Ok sm =>
         solve sm = Solved Example.zero_solution ∧
         read_back Example.EPSILON r [] rm0 sm Example.zero_solution = Ok (rm0, [])
     | Raise _ => False
     end) ∧
  (Example.run solve ByReaction []).2 = Raise (ValueError "Length mismatch") ∧
  (Example.run solve ByConcentration []).2 = Raise (ValueError "Length mismatch").
Proof.
  split_and!.
  - intros []; vm_compute; by split.
  - vm_compute. reflexivity.
  - vm_compute. reflexivity.
Qed.

(** The hypothesis on the ignore set is needed for [relax_lc]: with M1
    ignored by its id only, the test of line 219 does not skip it (see C8);
    the run returns, M1 has in the slack solution the slack values 0.5 and 0,
    and the report has the row of M2 only. *)
Lemma relax_lc_example_ignored_by_id :
  let outcome := Example.run Example.solve ByConcentration ["M1"] in
  (exists log rm, outcome = (log, Ok (rm, Example.slack_of outcome, Example.table_of outcome))) ∧
  Example.solve (Example.slack_of outcome) = Solved Example.slack_solution ∧
  "M1" ∈ slack_pair_ids ByConcentration Example.tmodel ["M1"] ∧
  slack_values ByConcentration (Example.slack_of outcome) Example.slack_solution
    "M1" 0.5 0 ∧
  (0 <? 0.5)%float = true ∧
  df_index (Example.table_of outcome) = ["M2"].
Proof.
  split_and!.
  - eexists _, _. vm_compute. reflexivity.
  - vm_compute. reflexivity.
  - vm_compute. apply list_elem_of_here.
  - eexists _, _. split_and!; vm_compute; reflexivity.
  - reflexivity.
  - vm_compute. reflexivity.
Qed.


(** On that run the report has the row of M2 and no other. *)
Lemma relax_lc_example_ignored_by_id_and_name :
  df_index (Example.table_of (Example.run Example.solve ByConcentration ["M1"; "LC_M1"]))
    = ["M2"].
Proof. vm_compute. reflexivity. Qed.

(** C8: the slack-injection pass of [relax_lc] tests the name of the
    log-concentration variable, not the id of the metabolite, against the
    ignore list: with M1 ignored, the variable LC_M1 is not skipped, M1 gets
    its slack pair, and the pair enters the objective and the constraint of
    R2; the read-back pass, which tests the id, skips M1. *)
Theorem C8_ignored_metabolite_not_skipped :
  match relax_lc_slack_model Example.BIGM_DG Example.make_name Example.tmodel ["M1"]
          "optlang-glpk" with
  | Ok slack_model =>
      var_of slack_model NegSlackLC "M1" = Ok (Example.var NegSlackLC "M1" 0 1000) ∧
      var_of slack_model PosSlackLC "M1" = Ok (Example.var PosSlackLC "M1" 0 1000) ∧
      "NegSlackLC_M1" ∈ symbols (objective slack_model) ∧
      (exists c, cons_of slack_model NegativeDeltaG "R2" = Ok c ∧
                 "NegSlackLC_M1" ∈ symbols (c_expr c)) ∧
      read_back Example.EPSILON ByConcentration ["M1"]
        (set_solver (deepcopy Example.tmodel) "optlang-glpk") slack_model
        Example.slack_solution
      = Ok (assign_ub
              (assign_lb (set_solver Example.tmodel "optlang-glpk")
                 (Example.var LogConcentration "M2" (-10) (-2))
                 (-10 - (0 + Example.EPSILON))%float)
              (Example.var LogConcentration "M2" (-10) (-2))
              (-2 + (0.25 + Example.EPSILON))%float,
            [("M2", report_row Example.EPSILON
                      (Example.var LogConcentration "M2" (-10) (-2)) 0 0.25)])
  | Raise _ => False
  end.
Proof.
  vm_compute. split_and!; try reflexivity.
  - apply list_elem_of_here.
  - eexists. split; [reflexivity|].
    repeat first [apply list_elem_of_here | apply list_elem_of_further].
Qed.

(** * Further properties of the relaxers *)

Section Further.

Variable BIGM_DG : float.
Variable EPSILON : float.
Variable make_name : VarKind -> string -> string.
Variable solve : ThermoModel -> Solve.
Variable solver_status : ThermoModel -> string.
Variable frame_str : DataFrame -> string.

Lemma widen_nothing_positive k ig my_neg my_pos
    (neg_values pos_values : gmap string float) ids rm0 rm ch :
  map_Forall (fun _ x => (0 <? x)%float = false) neg_values ->
  map_Forall (fun _ x => (0 <? x)%float = false) pos_values ->
  for_each (widen EPSILON k ig my_neg my_pos neg_values pos_values) ids (rm0, [])
    = Ok (rm, ch) ->
  rm = rm0 ∧ ch = [].
Proof.
  intros Hneg Hpos Hloop.
  enough ((rm, ch) = (rm0, [])) by by simplify_eq.
  revert Hloop. apply (for_each_inv (fun st => st = (rm0, []))); [done|].
  intros st i [rm2 ch2] _ -> Hstep.
  apply widen_step in Hstep
    as [[-> ->]|(v & dl & du & _ & _ & (nvar & pvar & _ & Hdl & _ & Hdu) & Hsome & _)];
    [done|].
  apply Hneg in Hdl. apply Hpos in Hdu. simpl in *. by rewrite Hdl, Hdu in Hsome.
Qed.

(** X2: when no value of the slack solution is strictly positive (all slacks
    at zero, say), the read-back pass of either relaxer, if it does not
    raise, leaves the relaxed model exactly as it was and the report empty. *)
Theorem X2_no_positive_slack_nothing_widened r ig rm0 sm sol rm ch :
  map_Forall (fun _ x => (0 <? x)%float = false) (raw sol) ->
  read_back EPSILON r ig rm0 sm sol = Ok (rm, ch) ->
  rm = rm0 ∧ ch = [].
Proof.
  intros Hzero. rewrite read_back_widen.
  apply widen_nothing_positive.
  - intros name x [Hx _]%map_lookup_filter_Some. by apply (Hzero name).
  - intros name x [Hx _]%map_lookup_filter_Some. by apply (Hzero name).
Qed.


Lemma widen_raises_KeyError k ig my_neg my_pos
    (neg_values pos_values : gmap string float) st i e :
  widen EPSILON k ig my_neg my_pos neg_values pos_values st i = Raise e ->
  exists key, e = KeyError key.
Proof.
  destruct st as [rm ch]. unfold widen, mbind, Result_bind, get_by_id, getitem.
  destruct (_ || _); [done|].
  repeat (match goal with
          | |- context [match head ?l with _ => _ end] => destruct (head l)
          | |- context [match ?m !! ?x with _ => _ end] => destruct (m !! x)
          | |- context [if ?b then _ else _] => destruct b
          end; simpl); intros ?; simplify_eq; by eexists.
Qed.

Lemma widen_missing_slack k ig my_neg my_pos
    (neg_values pos_values : gmap string float) rm ch i e0 st' :
  i ∉ ig ->
  contains_id v_id (get_variables_of_type rm k) i = true ->
  get_by_id v_id my_neg i = Raise e0 ->
  widen EPSILON k ig my_neg my_pos neg_values pos_values (rm, ch) i ≠ Ok st'.
Proof.
  intros Hig Hin Hneg. unfold widen.
  rewrite bool_decide_eq_false_2, Hin by done. simpl.
  destruct (get_by_id_contains _ _ _ Hin) as [v ->]. simpl.
  by rewrite Hneg.
Qed.

Lemma widen_loop_missing_slack k ig my_neg my_pos
    (neg_values pos_values : gmap string float) ids st i e0 :
  i ∈ ids -> i ∉ ig ->
  contains_id v_id (get_variables_of_type st.1 k) i = true ->
  get_by_id v_id my_neg i = Raise e0 ->
  exists key,
    for_each (widen EPSILON k ig my_neg my_pos neg_values pos_values) ids st
    = Raise (KeyError key).
Proof.
  intros Hi Hig Hin Hneg. revert st Hin.
  induction ids as [|x ids IH]; intros [rm ch] Hin; [by apply elem_of_nil in Hi|].
  cbn [for_each fst] in *.
  destruct (widen EPSILON k ig my_neg my_pos neg_values pos_values (rm, ch) x)
    as [[rm' ch']|e] eqn:Hstep.
  - destruct (decide (i = x)) as [->|Hne].
    { by eapply widen_missing_slack in Hstep. }
    apply elem_of_cons in Hi as [?|Hi]; [done|].
    apply (IH Hi (rm', ch')). simpl.
    apply widen_step in Hstep as [[-> ->]|(v & dl & du & _ & _ & _ & _ & -> & _)];
      [done|].
    by rewrite contains_assign.
  - apply widen_raises_KeyError in Hstep as [key ->]. by exists key.
Qed.

(** X4: when the slack model is built (at least one slack pair is made) and
    solved, and an entity of the model that is not ignored and has a
    variable of the relaxed kind has no negative slack variable in it (a
    reaction with a DeltaGstd variable and no NegativeDeltaG constraint; a
    metabolite whose variable name, not its id, is in the ignore list), the
    read-back pass raises [KeyError] and so does the relaxer. *)
Theorem X4_missing_slack_variable_raises r tmodel ig solver log0 sm sol i e0 :
  slack_model_of BIGM_DG make_name r tmodel ig solver = Ok sm ->
  solve sm = Solved sol ->
  i ∈ entity_ids r tmodel ->
  i ∉ ig ->
  contains_id v_id (get_variables_of_type tmodel (target_kind r)) i = true ->
  var_of sm (neg_slack_kind r) i = Raise e0 ->
  exists key,
    (relax BIGM_DG EPSILON make_name solve solver_status frame_str r tmodel ig solver
       log0).2 = Raise (KeyError key).
Proof.
  intros Hsm Hsol Hi Hig Hin Hneg.
  destruct (widen_loop_missing_slack (target_kind r) ig
              (get_variables_of_type sm (neg_slack_kind r))
              (get_variables_of_type sm (pos_slack_kind r))
              (get_solution_value_for_variables sol
                 (get_variables_of_type sm (neg_slack_kind r)))
              (get_solution_value_for_variables sol
                 (get_variables_of_type sm (pos_slack_kind r)))
              (entity_ids r (set_solver (deepcopy tmodel) solver))
              (set_solver (deepcopy tmodel) solver, []) i e0) as [key Hloop];
    try done.
  rewrite <- read_back_widen in Hloop. exists key.
  destruct r; simpl in *; unfold relax_dgo, relax_lc;
    unfold mbind at 1, M_bind at 1; rewrite probe_run;
    unfold relax_dgo_after_probe, relax_lc_after_probe, mbind, M_bind, lift, optimize;
    destruct (solve tmodel); by rewrite Hsm, Hsol, Hloop.
Qed.

Lemma update_variable_pointwise k i f vs :
  Forall2 (fun v' v => v' = v ∨ (v_kind v = k ∧ v_id v = i ∧ v' = f v))
    (update_variable k i f vs) vs.
Proof.
  induction vs as [|v vs IH]; simpl; [constructor|].
  case_bool_decide as Hhit.
  - constructor; [right; by destruct Hhit|].
    apply Forall_Forall2_diag, Forall_forall. by left.
  - constructor; [by left|done].
Qed.

Lemma bounds_only_change_update k keys keys' i f vs vs0 :
  (forall v, v_kind (f v) = v_kind v ∧ v_id (f v) = v_id v ∧ v_name (f v) = v_name v) ->
  i ∈ keys' -> (forall j, j ∈ keys -> j ∈ keys') ->
  Forall2 (bounds_only_change k keys) vs vs0 ->
  Forall2 (bounds_only_change k keys') (update_variable k i f vs) vs0.
Proof.
  intros Hf Hi Hmono Hold.
  eapply Forall2_trans; [|apply update_variable_pointwise|exact Hold].
  simpl. intros v2 v1 v0 Hstep (Hkind & Hid & Hname & Hsame).
  destruct (Hf v1) as (Hfk & Hfi & Hfn).
  assert (v_kind v2 = v_kind v1 ∧ v_id v2 = v_id v1 ∧ v_name v2 = v_name v1) as (?&?&?).
  { by destruct Hstep as [->|(_ & _ & ->)]. }
  repeat split; try congruence.
  intros Hfree.
  assert (v1 = v0) as ->.
  { apply Hsame. destruct Hfree as [?|Hfree]; [by left|right].
    intros Hin. by apply Hfree, Hmono. }
  destruct Hstep as [->|(Hk1 & Hi1 & ->)]; [done|].
  exfalso. destruct Hfree as [?|Hfree]; [done|]. apply Hfree. by rewrite Hi1.
Qed.

Lemma widen_loop_frame k ig my_neg my_pos
    (neg_values pos_values : gmap string float) ids rm0 rm ch :
  for_each (widen EPSILON k ig my_neg my_pos neg_values pos_values) ids (rm0, [])
    = Ok (rm, ch) ->
  Forall2 (bounds_only_change k ch.*1) (variables rm) (variables rm0).
Proof.
  apply (for_each_inv
           (fun st => Forall2 (bounds_only_change k st.2.*1) (variables st.1)
                        (variables rm0))).
  { simpl. apply Forall_Forall2_diag, Forall_forall. by intros v _. }
  intros [rm1 ch1] i [rm2 ch2] _ Hinv Hstep. simpl in *.
  apply widen_step in Hstep as [[-> ->]|(v & dl & du & _ & Hv & _ & _ & -> & ->)];
    [done|].
  apply var_of_Ok in Hv as (_ & Hk & Hi).
  unfold assign_ub, assign_lb. simpl. rewrite Hk, Hi.
  assert (i ∈ (od_set ch1 i (report_row EPSILON v dl du)).*1) as Hkey.
  { rewrite od_set_keys. case_bool_decide; [done|].
    apply elem_of_app. right. apply list_elem_of_here. }
  apply (bounds_only_change_update k
           (od_set ch1 i (report_row EPSILON v dl du)).*1); [done|done|done|].
  apply (bounds_only_change_update k ch1.*1); [done|done| |done].
  intros j Hj. rewrite od_set_keys. case_bool_decide; [done|].
  apply elem_of_app. by left.
Qed.

(** X5: the relaxed model that [relax_dgo] returns is the input model bound
    to the requested solver, with other bounds: the same reactions,
    metabolites, constraints, RT and objective, and variable by variable the
    same kind, owner and name; a variable that is no DeltaGstd variable, or
    whose reaction has no row in the report, has its bounds unchanged.  (In
    [relax_dgo] the slack variables are hooked on reactions of the slack
    model, lines 76-83, and the relaxed model is written to by the bound
    assignments of lines 149-150 only.) *)
Theorem X5_relaxed_model_differs_in_bounds_only tmodel ig solver_name log0 log rm sm tbl :
  relax_dgo BIGM_DG EPSILON make_name solve solver_status frame_str tmodel ig solver_name
    log0 = (log, Ok (rm, sm, tbl)) ->
  reactions rm = reactions tmodel ∧ metabolites rm = metabolites tmodel ∧
  constraints rm = constraints tmodel ∧ RT rm = RT tmodel ∧
  objective rm = objective tmodel ∧ direction rm = direction tmodel ∧
  solver rm = solver_name ∧
  Forall2 (bounds_only_change DeltaGstd (df_index tbl))
    (variables rm) (variables tmodel).
Proof.
  intros Hrun.
  change (relax BIGM_DG EPSILON make_name solve solver_status frame_str ByReaction
            tmodel ig solver_name log0 = (log, Ok (rm, sm, tbl))) in Hrun.
  destruct (relax_Ok _ _ _ _ _ _ _ _ _ _ _ _ _ _ _ Hrun)
    as (sol & _ & ch & _ & _ & Hrb & _ & _ & -> & _).
  apply relax_report in Hrun as (_ & _ & _ & Hsame & _).
  destruct Hsame as (? & ? & ? & ? & ? & ? & ?).
  split_and!; try done.
  rewrite read_back_widen in Hrb. by apply widen_loop_frame in Hrb.
Qed.

(** X6: the variables of the slack model of either relaxer are the variables
    of the input model, in their order, followed by one slack pair (negative,
    then positive, each with the bounds [0, BIGM_DG]) per entity that passes
    the test of the injection pass, in the order of the pass. *)
Theorem X6_slack_model_variables r tmodel ig solver_name sm :
  slack_model_of BIGM_DG make_name r tmodel ig solver_name = Ok sm ->
  variables sm =
    variables tmodel ++
    concat (slack_pair BIGM_DG make_name r <$> slack_pair_ids r tmodel ig).
Proof. intros Hsm. by apply slack_model_shape in Hsm as [? _]. Qed.

(** X7: a slack model of either relaxer has at least one slack pair (with
    none, [set_objective] raises on the number [0], lines 107 and 271); it
    is bound to the requested solver and minimizes the sum of exactly the
    slack variables that the pass made: its objective is
    [0 + (neg + pos) + ...] over the slack pairs in the order of the pass;
    reactions, metabolites and RT are those of the input model. *)
Theorem X7_slack_model_objective r tmodel ig solver_name sm :
  slack_model_of BIGM_DG make_name r tmodel ig solver_name = Ok sm ->
  slack_pair_ids r tmodel ig ≠ [] ∧
  objective sm = slack_objective make_name r (slack_pair_ids r tmodel ig) ∧
  symbols (objective sm) =
    v_name <$> concat (slack_pair BIGM_DG make_name r <$> slack_pair_ids r tmodel ig) ∧
  direction sm = "min" ∧ solver sm = solver_name ∧
  reactions sm = reactions tmodel ∧ metabolites sm = metabolites tmodel ∧
  RT sm = RT tmodel.
Proof.
  intros Hsm. pose proof (slack_model_some_pair _ _ _ _ _ _ _ Hsm) as Hsome.
  apply slack_model_shape in Hsm as (_ & Hobj & ? & ? & ? & ? & ?).
  split_and!; try done. rewrite Hobj. clear.
  generalize (slack_pair_ids r tmodel ig). intros ids.
  unfold slack_objective.
  enough (forall e,
            symbols (fold_left
                       (fun objective i =>
                          Add objective (Add (Sym (make_name (neg_slack_kind r) i))
                                             (Sym (make_name (pos_slack_kind r) i))))
                       ids e) =
            symbols e ++ (v_name <$> concat (slack_pair BIGM_DG make_name r <$> ids)))
    as Hfold by apply (Hfold (Num 0)).
  induction ids as [|i ids IH]; intros e; simpl; [by rewrite app_nil_r|].
  rewrite IH. simpl. by rewrite <- !app_assoc.
Qed.

Lemma subs_fixes_names (d : gmap string (option GenericVariable)) (e : Expr) :
  (forall k v, d !! k = Some (Some v) -> v_name v = k) ->
  subs d e = e.
Proof.
  intros Hd.
  induction e as [x|name|a IHa b IHb|a IHa b IHb|a IHa b IHb]; simpl;
    [done| |by rewrite IHa, IHb..].
  destruct (d !! name) as [[v|]|] eqn:Hlookup; [|done..].
  by rewrite (Hd name v).
Qed.

Lemma subs_dict_of_names slack_model c k v :
  subs_dict_of slack_model c !! k = Some (Some v) -> v_name v = k.
Proof.
  intros Hlookup.
  apply elem_of_list_to_map_2, list_elem_of_fmap in Hlookup as (k' & Heq & _).
  simplify_eq. unfold variables_get in *.
  assert (v ∈ filter (fun v => v_name v = k') (variables slack_model)) as Hv.
  { apply head_Some_elem_of. congruence. }
  by apply list_elem_of_filter in Hv as [-> _].
Qed.

Lemma get_by_id_NoDup {A} (id_of : A -> string) (l : list A) x :
  NoDup (id_of <$> l) -> x ∈ l -> get_by_id id_of l (id_of x) = Ok x.
Proof.
  unfold get_by_id. induction l as [|y l IH]; intros Hnd Hx;
    [by apply elem_of_nil in Hx|].
  rewrite fmap_cons in Hnd. apply NoDup_cons in Hnd as [Hy Hnd].
  rewrite filter_cons. apply elem_of_cons in Hx as [->|Hx].
  - by rewrite decide_True.
  - rewrite decide_False; [by apply IH|].
    intros Heq. apply Hy. rewrite Heq. by apply list_elem_of_fmap_2.
Qed.

Lemma filter_all {A} (P : A -> Prop) `{forall x, Decision (P x)} (l : list A) :
  (forall x, x ∈ l -> P x) -> filter P l = l.
Proof.
  induction l as [|x l IH]; intros Hall; [done|].
  rewrite filter_cons_True by (apply Hall, list_elem_of_here).
  f_equal. apply IH. intros y Hy. by apply Hall, list_elem_of_further.
Qed.

Lemma relax_dgo_constraint_id tmodel ig c :
  c_id (relax_dgo_constraint make_name tmodel ig c) = c_id c.
Proof. unfold relax_dgo_constraint. by case_decide. Qed.

(** The constraints of the slack model while [relax_dgo] goes through the
    constraints [cs] of unique ids: those gone through are rewritten or left,
    those to come are as they were. *)
Lemma relax_dgo_inject_constraints tmodel ig cs sm0 sm obj :
  cs = get_constraints_of_type sm0 NegativeDeltaG ->
  NoDup (c_id <$> cs) ->
  for_each (relax_dgo_inject BIGM_DG make_name ig
              (get_variables_of_type tmodel DeltaGstd)) cs (sm0, Num 0)
    = Ok (sm, obj) ->
  get_constraints_of_type sm NegativeDeltaG
    ≡ₚ relax_dgo_constraint make_name tmodel ig <$> cs ∧
  get_constraints_of_type sm OtherConstraint =
    get_constraints_of_type sm0 OtherConstraint.
Proof.
  clear solve solver_status frame_str EPSILON.
  intros Hcs Hnd Hloop.
  enough ((forall post, cs = cs ++ post ->
             get_constraints_of_type sm NegativeDeltaG
               ≡ₚ (relax_dgo_constraint make_name tmodel ig <$> cs) ++ post) ∧
          get_constraints_of_type sm OtherConstraint =
            get_constraints_of_type sm0 OtherConstraint) as [Hperm Hother].
  { split; [|done]. rewrite (Hperm []); by rewrite app_nil_r. }
  revert Hloop.
  apply (for_each_prefix_ind
           (fun pre st =>
              (forall post, cs = pre ++ post ->
                 get_constraints_of_type st.1 NegativeDeltaG
                   ≡ₚ (relax_dgo_constraint make_name tmodel ig <$> pre) ++ post) ∧
              get_constraints_of_type st.1 OtherConstraint =
                get_constraints_of_type sm0 OtherConstraint)).
  { simpl. split; [|done]. intros post <-. by rewrite Hcs. }
  intros pre c post [sm1 obj1] [sm2 obj2] Hsplit [Hperm Hother] Hstep. simpl in *.
  specialize (Hperm (c :: post) Hsplit).
  assert (forall post', cs = (pre ++ [c]) ++ post' -> post' = post) as Hpost.
  { intros post'. rewrite Hsplit, <- app_assoc. simpl.
    by intros ?%app_inv_head; simplify_eq. }
  unfold relax_dgo_inject, contains_id in Hstep.
  destruct (decide ((c_id c ∉ ig) ∧
                    c_id c ∈ v_id <$> get_variables_of_type tmodel DeltaGstd))
    as [[Hig Hin]|Hskip].
  - assert (relax_dgo_constraint make_name tmodel ig c = relax_dgo_rewritten make_name c)
      as Hnew by (unfold relax_dgo_constraint; by rewrite decide_True).
    rewrite bool_decide_eq_false_2, bool_decide_eq_true_2 in Hstep by done.
    simpl in Hstep. injection Hstep as <- _.
    assert (c_kind c = NegativeDeltaG) as Hkind.
    { assert (c ∈ cs) as Hc by (rewrite Hsplit; apply elem_of_app; right;
                                 apply list_elem_of_here).
      rewrite Hcs in Hc. by apply list_elem_of_filter in Hc as [? _]. }
    rewrite (subs_fixes_names _ _ (subs_dict_of_names _ _)).
    unfold get_constraints_of_type, add_constraint, remove_constraint in *. simpl in *.
    rewrite !filter_app. split.
    + intros post' ->%Hpost.
      rewrite fmap_app.
      change (relax_dgo_constraint make_name tmodel ig <$> [c])
        with [relax_dgo_constraint make_name tmodel ig c].
      rewrite Hnew.
      rewrite (filter_cons_True (fun c0 => c_kind c0 = NegativeDeltaG)) by done.
      rewrite filter_nil.
      rewrite list_filter_filter.
      rewrite (list_filter_iff _ (fun c0 => c_id c0 ≠ c_id c ∧ c_kind c0 = NegativeDeltaG)).
      2: { intros c0. rewrite Hkind. naive_solver. }
      rewrite <- list_filter_filter, Hperm.
      rewrite filter_app, filter_cons, decide_False by naive_solver.
      rewrite Hsplit, !fmap_app, fmap_cons in Hnd.
      apply NoDup_app in Hnd as (_ & Hdisj & Hnd).
      apply NoDup_cons in Hnd as [Hfresh _].
      rewrite !filter_all.
      * rewrite <- !app_assoc. apply Permutation_app_head.
        by rewrite Permutation_app_comm.
      * intros c0 Hc0 Heq. apply Hfresh. rewrite <- Heq. by apply list_elem_of_fmap_2.
      * intros c0 (c1 & -> & Hc1)%list_elem_of_fmap Heq.
        rewrite relax_dgo_constraint_id in Heq.
        apply (Hdisj (c_id c1)); [by apply list_elem_of_fmap_2|].
        rewrite Heq. apply list_elem_of_here.
    + rewrite filter_cons_False by (simpl; congruence).
      rewrite filter_nil, app_nil_r, <- Hother, list_filter_filter.
      apply list_filter_iff. intros c0. rewrite Hkind.
      split; [by intros [? _]|]. intros Hk. split; [done|]. intros [Hk' _]. congruence.
  - assert (relax_dgo_constraint make_name tmodel ig c = c)
      as Hnew by (unfold relax_dgo_constraint; by rewrite decide_False).
    assert (bool_decide (c_id c ∈ ig)
            || negb (bool_decide
                       (c_id c ∈ v_id <$> get_variables_of_type tmodel DeltaGstd))
            = true) as Hguard.
    { apply not_and_l in Hskip as [Hig%dec_stable|Hin].
      - by rewrite bool_decide_eq_true_2.
      - rewrite (bool_decide_eq_false_2 _ Hin). apply orb_true_r. }
    rewrite Hguard in Hstep. simplify_eq. split; [|done].
    intros post' ->%Hpost. rewrite fmap_app.
    change (relax_dgo_constraint make_name tmodel ig <$> [c])
      with [relax_dgo_constraint make_name tmodel ig c].
    by rewrite Hnew, Hperm, <- app_assoc.
Qed.

(** X9: in the slack model of [relax_dgo], the constraints being of unique
    ids, the Gibbs-energy constraint under the id of a reaction is the
    constraint of the input model if the reaction is ignored or has no
    DeltaGstd variable, and otherwise its expression plus
    [PosSlack - NegSlack] with the bounds [0, 0]; the constraints of other
    kinds are those of the input model. *)
Theorem X9_relax_dgo_constraints tmodel ig solver_name sm c :
  NoDup (c_id <$> get_constraints_of_type tmodel NegativeDeltaG) ->
  relax_dgo_slack_model BIGM_DG make_name tmodel ig solver_name = Ok sm ->
  c ∈ get_constraints_of_type tmodel NegativeDeltaG ->
  cons_of sm NegativeDeltaG (c_id c) = Ok (relax_dgo_constraint make_name tmodel ig c) ∧
  get_constraints_of_type sm OtherConstraint =
    get_constraints_of_type tmodel OtherConstraint.
Proof.
  intros Hnd Hsm Hc. unfold relax_dgo_slack_model, mbind, Result_bind in Hsm.
  destruct (for_each _ _ _) as [[sm0 obj]|] eqn:Hloop; [|done].
  destruct (set_objective sm0 obj) as [sm1|] eqn:Hset; [|done].
  apply set_objective_Ok in Hset as [-> _].
  simplify_eq.
  apply (relax_dgo_inject_constraints tmodel) in Hloop as [Hperm Hother];
    [|done|done].
  split; [|done].
  unfold cons_of.
  change (get_constraints_of_type
            (set_direction (repair (with_objective sm0 obj)) "min") NegativeDeltaG)
    with (get_constraints_of_type sm0 NegativeDeltaG).
  rewrite <- (relax_dgo_constraint_id tmodel ig c).
  apply get_by_id_NoDup.
  - rewrite Hperm, <- list_fmap_compose.
    erewrite list_fmap_ext; [exact Hnd|].
    intros ? c0 _. apply relax_dgo_constraint_id.
  - rewrite Hperm. by apply list_elem_of_fmap_2.
Qed.

(** X10: after the first loop of [relax_lc] (lines 215-233) the dicts
    [neg_slack] and [pos_slack] have the same keys, the names of the
    log-concentration variables whose name is not in the ignore list, and
    under such a name the negative and the positive slack variable owned by
    the metabolite of that variable: [pos_slack[this_var.name]] (line 253)
    is there whenever [this_var.name in neg_slack] (line 250). *)
Theorem X10_relax_lc_slack_dicts ig lcs sm0 sm obj
    (pos_slack neg_slack : gmap string GenericVariable) name :
  for_each (relax_lc_add_slack BIGM_DG make_name ig) lcs (sm0, Num 0, ∅, ∅)
    = Ok (sm, obj, pos_slack, neg_slack) ->
  (neg_slack !! name = None -> pos_slack !! name = None) ∧
  (forall neg_var, neg_slack !! name = Some neg_var ->
     exists this_lc,
       this_lc ∈ lcs ∧ v_name this_lc = name ∧ (name ∉ ig) ∧
       neg_var = slack_variable BIGM_DG make_name NegSlackLC (v_id this_lc) ∧
       pos_slack !! name =
         Some (slack_variable BIGM_DG make_name PosSlackLC (v_id this_lc))) ∧
  (forall this_lc, this_lc ∈ lcs -> v_name this_lc = name -> name ∉ ig ->
     is_Some (neg_slack !! name)).
Proof.
  clear solve solver_status frame_str EPSILON.
  intros Hloop.
  enough (forall name,
            (neg_slack !! name = None -> pos_slack !! name = None) ∧
            (forall neg_var, neg_slack !! name = Some neg_var ->
               exists this_lc,
                 this_lc ∈ lcs ∧ v_name this_lc = name ∧ (name ∉ ig) ∧
                 neg_var = slack_variable BIGM_DG make_name NegSlackLC (v_id this_lc) ∧
                 pos_slack !! name =
                   Some (slack_variable BIGM_DG make_name PosSlackLC (v_id this_lc))) ∧
            (forall this_lc, this_lc ∈ lcs -> v_name this_lc = name -> name ∉ ig ->
               is_Some (neg_slack !! name))) as Hall by apply Hall.
  clear name. revert Hloop.
  apply (for_each_prefix_ind
           (fun pre st =>
              forall name,
                (st.2 !! name = None -> st.1.2 !! name = None) ∧
                (forall neg_var, st.2 !! name = Some neg_var ->
                   exists this_lc,
                     this_lc ∈ pre ∧ v_name this_lc = name ∧ (name ∉ ig) ∧
                     neg_var =
                       slack_variable BIGM_DG make_name NegSlackLC (v_id this_lc) ∧
                     st.1.2 !! name =
                       Some (slack_variable BIGM_DG make_name PosSlackLC (v_id this_lc))) ∧
                (forall this_lc, this_lc ∈ pre -> v_name this_lc = name -> name ∉ ig ->
                   is_Some (st.2 !! name)))).
  { intros name. simpl. split_and!; [done| |].
    - intros n Hn. by rewrite lookup_empty in Hn.
    - intros lc Hlc. by apply elem_of_nil in Hlc. }
  intros pre v post [[[sm1 obj1] pos1] neg1] [[[sm2 obj2] pos2] neg2] _ Hinv Hstep name.
  destruct (Hinv name) as (Hnone & Hsome & Hin). simpl in *.
  unfold relax_lc_add_slack in Hstep.
  case_bool_decide as Hig.
  - simplify_eq. split_and!; [done| |].
    + intros n Hn. destruct (Hsome n Hn) as (lc & Hlc & ?).
      exists lc. split; [|done]. apply elem_of_app. by left.
    + intros lc [Hlc|Hlc%list_elem_of_singleton]%elem_of_app Hname Hnot.
      * by eapply Hin.
      * subst. done.
  - simpl in Hstep. injection Hstep as _ _ <- <-.
    destruct (decide (v_name v = name)) as [<-|Hne].
    + rewrite !lookup_insert_eq. split_and!; [done| |by eexists].
      intros n ?; simplify_eq. exists v. split_and!; try done.
      apply elem_of_app. right. apply list_elem_of_here.
    + rewrite !lookup_insert_ne by done. split_and!; [done| |].
      * intros n Hn. destruct (Hsome n Hn) as (lc & Hlc & ?).
        exists lc. split; [|done]. apply elem_of_app. by left.
      * intros lc [Hlc|Hlc%list_elem_of_singleton]%elem_of_app Hname Hnot.
        -- by eapply Hin.
        -- subst. done.
Qed.

(** X11: when the injection pass gives no entity a slack pair (every
    candidate is ignored, or there is none), the objective is still the
    number [0] of lines 66 and 213 when it reaches [set_objective] (lines
    107 and 271): either relaxer raises [TypeError] there, before any solve
    of a slack model, whatever the solver does. *)
Theorem X11_no_slack_pair_raises r tmodel ig solver_name log0 :
  slack_pair_ids r tmodel ig = [] ->
  exists msg,
    (relax BIGM_DG EPSILON make_name solve solver_status frame_str r tmodel ig
       solver_name log0).2 = Raise (TypeError msg).
Proof.
  intros Hnone. eexists.
  pose proof (slack_model_no_pair BIGM_DG make_name r tmodel ig solver_name Hnone) as Hsm.
  destruct r; simpl in *; unfold relax_dgo, relax_lc;
    unfold mbind at 1, M_bind at 1; rewrite (probe_run solve solver_status);
    unfold relax_dgo_after_probe, relax_lc_after_probe, mbind, M_bind, lift;
    destruct (solve tmodel); by rewrite Hsm.
Qed.

End Further.

(** * Concrete runs for the further properties *)

Lemma X2_no_positive_slack_nothing_widened_witness :
  set_solver (deepcopy Example.tmodel) "optlang-glpk"
    = set_solver (deepcopy Example.tmodel) "optlang-glpk" ∧
  ([] : list (string * list float)) = [].
Proof.
  apply (X2_no_positive_slack_nothing_widened Example.EPSILON ByReaction []
           (set_solver (deepcopy Example.tmodel) "optlang-glpk")
           (Example.slack_of (Example.run Example.solve ByReaction []))
           Example.zero_solution).
  - apply (bool_decide_unpack _). vm_compute. exact I.
  - vm_compute. reflexivity.
Defined.


(** With the name of the variable of M1 in the ignore list, not the id of
    M1, the first loop of [relax_lc] gives M1 no slack pair and the read-back
    pass looks for one. *)
Lemma X4_missing_slack_variable_raises_witness :
  exists key,
    (Example.run Example.solve ByConcentration ["LC_M1"]).2 = Raise (KeyError key).
Proof.
  apply (X4_missing_slack_variable_raises Example.BIGM_DG Example.EPSILON
           Example.make_name Example.solve Example.solver_status Example.frame_str
           ByConcentration Example.tmodel ["LC_M1"] "optlang-glpk" []
           (match slack_model_of Example.BIGM_DG Example.make_name ByConcentration
                    Example.tmodel ["LC_M1"] "optlang-glpk" with
            | Ok sm => sm
            | Raise _ => Example.tmodel
            end)
           Example.slack_solution "M1" (KeyError "M1")).
  - vm_compute. reflexivity.
  - vm_compute. reflexivity.
  - apply list_elem_of_here.
  - by intros ?%list_elem_of_singleton.
  - vm_compute. reflexivity.
  - vm_compute. reflexivity.
Defined.

Lemma X5_relaxed_model_differs_in_bounds_only_witness :
  let rm := Example.relaxed_of (Example.run Example.solve ByReaction []) in
  reactions rm = reactions Example.tmodel ∧ metabolites rm = metabolites Example.tmodel ∧
  constraints rm = constraints Example.tmodel ∧ RT rm = RT Example.tmodel ∧
  objective rm = objective Example.tmodel ∧ direction rm = direction Example.tmodel ∧
  solver rm = "optlang-glpk" ∧
  Forall2
    (bounds_only_change DeltaGstd
       (df_index (Example.table_of (Example.run Example.solve ByReaction []))))
    (variables rm) (variables Example.tmodel).
Proof.
  apply (X5_relaxed_model_differs_in_bounds_only Example.BIGM_DG Example.EPSILON
           Example.make_name Example.solve Example.solver_status Example.frame_str
           Example.tmodel [] "optlang-glpk" []
           (Example.run Example.solve ByReaction []).1
           (Example.relaxed_of (Example.run Example.solve ByReaction []))
           (Example.slack_of (Example.run Example.solve ByReaction []))
           (Example.table_of (Example.run Example.solve ByReaction []))).
  vm_compute. reflexivity.
Defined.

Lemma X6_slack_model_variables_witness :
  variables
    (match slack_model_of Example.BIGM_DG Example.make_name ByConcentration
             Example.tmodel ["M2"; "LC_M1"] "optlang-glpk" with
     | Ok sm => sm
     | Raise _ => Example.tmodel
     end) =
    variables Example.tmodel ++
    concat (slack_pair Example.BIGM_DG Example.make_name ByConcentration <$>
              slack_pair_ids ByConcentration Example.tmodel ["M2"; "LC_M1"]).
Proof.
  apply (X6_slack_model_variables Example.BIGM_DG Example.make_name
           ByConcentration Example.tmodel ["M2"; "LC_M1"] "optlang-glpk").
  vm_compute. reflexivity.
Defined.

(** In that slack model the pair is that of M2, the metabolite ignored by its
    id: the test of line 219 is on the name of the variable. *)
Lemma relax_lc_example_slack_pair_ids :
  slack_pair_ids ByConcentration Example.tmodel ["M2"; "LC_M1"] = ["M2"].
Proof. vm_compute. reflexivity. Qed.

Lemma X7_slack_model_objective_witness :
  let sm := Example.slack_of (Example.run Example.solve ByReaction ["R2"]) in
  slack_pair_ids ByReaction Example.tmodel ["R2"] ≠ [] ∧
  objective sm =
    slack_objective Example.make_name ByReaction
      (slack_pair_ids ByReaction Example.tmodel ["R2"]) ∧
  symbols (objective sm) =
    v_name <$> concat (slack_pair Example.BIGM_DG Example.make_name ByReaction <$>
                         slack_pair_ids ByReaction Example.tmodel ["R2"]) ∧
  direction sm = "min" ∧ solver sm = "optlang-glpk" ∧
  reactions sm = reactions Example.tmodel ∧
  metabolites sm = metabolites Example.tmodel ∧
  RT sm = RT Example.tmodel.
Proof.
  apply (X7_slack_model_objective Example.BIGM_DG Example.make_name
           ByReaction Example.tmodel ["R2"] "optlang-glpk").
  vm_compute. reflexivity.
Defined.

Lemma X9_relax_dgo_constraints_witness :
  let sm := Example.slack_of (Example.run Example.solve ByReaction ["R2"]) in
  cons_of sm NegativeDeltaG "R1" =
    Ok (relax_dgo_constraint Example.make_name Example.tmodel ["R2"]
          (Example.G Example.R1 (-1) 1)) ∧
  get_constraints_of_type sm OtherConstraint =
    get_constraints_of_type Example.tmodel OtherConstraint.
Proof.
  apply (X9_relax_dgo_constraints Example.BIGM_DG Example.make_name
           Example.tmodel ["R2"] "optlang-glpk"
           (Example.slack_of (Example.run Example.solve ByReaction ["R2"]))
           (Example.G Example.R1 (-1) 1)).
  - apply (bool_decide_unpack _). vm_compute. exact I.
  - vm_compute. reflexivity.
  - vm_compute. apply list_elem_of_here.
Defined.

(** On the example, with R2 ignored: the constraint of R1 gets the slack
    pair of R1, the constraint of R2 is kept as it is. *)
Lemma relax_dgo_example_constraints :
  let sm := Example.slack_of (Example.run Example.solve ByReaction ["R2"]) in
  cons_of sm NegativeDeltaG "R1" =
    Ok {| c_kind := NegativeDeltaG; c_reaction := Example.R1;
          c_expr := Add (Example.neg_dg_expr "R1" (-1) 1)
                      (Sub (Sym "PosSlack_R1") (Sym "NegSlack_R1"));
          c_lb := 0; c_ub := 0 |} ∧
  cons_of sm NegativeDeltaG "R2" = Ok (Example.G Example.R2 (-2) 1).
Proof. split; vm_compute; reflexivity. Qed.

Lemma X10_relax_lc_slack_dicts_witness :
  (Example.lc_neg_slack !! "LC_M1" = None -> Example.lc_pos_slack !! "LC_M1" = None) ∧
  (forall neg_var, Example.lc_neg_slack !! "LC_M1" = Some neg_var ->
     exists this_lc,
       this_lc ∈ get_variables_of_type Example.tmodel LogConcentration ∧
       v_name this_lc = "LC_M1" ∧ ("LC_M1" ∉ []) ∧
       neg_var = slack_variable Example.BIGM_DG Example.make_name NegSlackLC
                   (v_id this_lc) ∧
       Example.lc_pos_slack !! "LC_M1" =
         Some (slack_variable Example.BIGM_DG Example.make_name PosSlackLC
                 (v_id this_lc))) ∧
  (forall this_lc,
     this_lc ∈ get_variables_of_type Example.tmodel LogConcentration ->
     v_name this_lc = "LC_M1" -> "LC_M1" ∉ [] ->
     is_Some (Example.lc_neg_slack !! "LC_M1")).
Proof.
  apply (X10_relax_lc_slack_dicts Example.BIGM_DG Example.make_name []
           (get_variables_of_type Example.tmodel LogConcentration)
           (set_solver Example.tmodel "optlang-glpk")
           Example.lc_slack_model
           (match Example.lc_slacks with Ok (_, obj, _, _) => obj | Raise _ => Num 0 end)
           Example.lc_pos_slack Example.lc_neg_slack "LC_M1").
  vm_compute. reflexivity.
Defined.

(** Both reactions ignored: no slack pair, and [set_objective] is handed the
    number [0]. *)
Lemma X11_no_slack_pair_raises_witness :
  exists msg,
    (Example.run Example.solve ByReaction ["R1"; "R2"]).2 = Raise (TypeError msg).
Proof.
  apply (X11_no_slack_pair_raises Example.BIGM_DG Example.EPSILON Example.make_name
           Example.solve Example.solver_status Example.frame_str
           ByReaction Example.tmodel ["R1"; "R2"] "optlang-glpk" []).
  vm_compute. reflexivity.
Defined.

(** So does [relax_lc] with the names of both log-concentration variables
    ignored. *)
Lemma relax_lc_example_no_slack_pair :
  (Example.run Example.solve ByConcentration ["LC_M1"; "LC_M2"]).2
    = Raise (TypeError "not a valid objective").
Proof. vm_compute. reflexivity. Qed.
